(** * SparkFun_MicroPressure: calibration model and read protocol

    A shallow embedding of [SparkFun_MicroPressure.cpp] / [.h], the Arduino
    driver of the Honeywell MPR pressure sensor.

    - 32-bit machine integers are [Z] with the wrap-around written out.
    - The C++ [float] and [double] types are a type class, [Platform]: the
      driver is written once, over the class, and is run on IEEE 754
      arithmetic (binary32 [float], [double] of a chosen format, as
      [SpecFloat] of the Standard Library defines them) and on exact
      rational arithmetic.
    - The I2C bus, the end-of-conversion line and [delay] are a [World] that
      the driver's operations thread through a small monad; the two waiting
      loops take fuel, and run out of it when the sensor never gets ready. *)

From Stdlib Require Import ZArith Lia Bool List QArith Qcanon.
From Stdlib Require Import Strings.Ascii Strings.Byte.
From Stdlib Require Import Floats.SpecFloat.
Import ListNotations.

Local Open Scope Z_scope.

(** ** Machine integers *)

(** Conversion to [uint8_t], [uint32_t] and [int32_t] (two's complement). *)
Definition to_uint8 (z : Z) : Z := z mod 2^8.
Definition to_uint32 (z : Z) : Z := z mod 2^32.
Definition to_int32 (z : Z) : Z := (z + 2^31) mod 2^32 - 2^31.

Definition is_uint32 (z : Z) : Prop := 0 <= z < 2^32.

(** [a - b] on two [uint32_t]. *)
Definition sub_u32 (a b : Z) : Z := to_uint32 (a - b).
(** [a - b] on two [int32_t]; an overflow wraps (as the targets' compilers
    make it: the C++ standard leaves it undefined). *)
Definition sub_i32 (a b : Z) : Z := to_int32 (a - b).

(** The value of a byte on the bus. *)
Definition u8 (b : byte) : Z := Z.of_N (Byte.to_N b).

(** ** Header constants *)

Definition MAXIMUM_PSI : Z := 25.
Definition MINIMUM_PSI : Z := 0.

Definition BUSY_FLAG : Z := 0x20.
Definition INTEGRITY_FLAG : Z := 0x04.
Definition MATH_SAT_FLAG : Z := 0x01.

(** [enum Pressure_Units]: an unscoped enumeration, that is an integer; the
    enumerators are its values 0 to 7. [readPressure] compares its argument
    with the enumerators one after the other and has a final [else], so the
    type is kept as the integer it is. *)
Definition Pressure_Units : Type := Z.
Definition PSI : Pressure_Units := 0.
Definition PA : Pressure_Units := 1.
Definition KPA : Pressure_Units := 2.
Definition TORR : Pressure_Units := 3.
Definition INHG : Pressure_Units := 4.
Definition ATM : Pressure_Units := 5.
Definition BAR : Pressure_Units := 6.
Definition RAW : Pressure_Units := 7.

(** ** Floating-point platform *)

(** What the driver uses of [float] and [double]. A decimal literal such as
    [6894.7573] has type [double]; [pressure*6894.7573] widens [pressure],
    multiplies in [double], and the [return] narrows the product. *)
Class Platform : Type := {
  float : Type;
  double : Type;
  float_of_Z : Z -> float;            (* float(n), n a 32-bit integer *)
  fadd : float -> float -> float;
  fsub : float -> float -> float;
  fmul : float -> float -> float;
  fdiv : float -> float -> float;
  NAN : float;
  double_of_float : float -> double;
  float_of_double : double -> float;
  double_lit : Q -> double;           (* a decimal literal *)
  dmul : double -> double -> double
}.

(** *** IEEE 754 *)

Definition SFconv (prec emax : Z) (x : spec_float) : spec_float :=
  match x with
  | S754_finite s m e => binary_normalize prec emax (cond_Zopp s (Zpos m)) e s
  | _ => x
  end.

(** The float nearest to the rational [q]. *)
Definition SF_of_Q (prec emax : Z) (q : Q) : spec_float :=
  match Qnum q with
  | Z0 => S754_zero false
  | Zpos n => SFdiv prec emax (S754_finite false n 0) (S754_finite false (Qden q) 0)
  | Zneg n => SFdiv prec emax (S754_finite true n 0) (S754_finite false (Qden q) 0)
  end.

(** [float] is binary32; [double] has [dprec] bits and largest exponent
    [demax]: binary64 on the 32-bit boards, binary32 again on AVR. *)
Definition IEEE (dprec demax : Z) : Platform := {|
  float := spec_float;
  double := spec_float;
  float_of_Z := fun z => binary_normalize 24 128 z 0 false;
  fadd := SFadd 24 128;
  fsub := SFsub 24 128;
  fmul := SFmul 24 128;
  fdiv := SFdiv 24 128;
  NAN := S754_nan;
  double_of_float := SFconv dprec demax;
  float_of_double := SFconv 24 128;
  double_lit := SF_of_Q dprec demax;
  dmul := SFmul dprec demax
|}.

Definition ARM : Platform := IEEE 53 1024.
Definition AVR : Platform := IEEE 24 128.

(** *** Exact arithmetic *)

(** Rational numbers, with [None] for what is not a number: the arithmetic
    of the driver without rounding and without overflow. *)
Definition exact : Type := option Qc.

Definition exact_lift2 (f : Qc -> Qc -> Qc) (x y : exact) : exact :=
  match x, y with
  | Some a, Some b => Some (f a b)
  | _, _ => None
  end.

Definition exact_div (x y : exact) : exact :=
  match x, y with
  | Some a, Some b => if Qc_eq_dec b (Q2Qc 0) then None else Some (Qcdiv a b)
  | _, _ => None
  end.

Definition Exact : Platform := {|
  float := exact;
  double := exact;
  float_of_Z := fun z => Some (Q2Qc (inject_Z z));
  fadd := exact_lift2 Qcplus;
  fsub := exact_lift2 Qcminus;
  fmul := exact_lift2 Qcmult;
  fdiv := exact_div;
  NAN := None;
  double_of_float := fun x => x;
  float_of_double := fun x => x;
  double_lit := fun q => Some (Q2Qc q);
  dmul := exact_lift2 Qcmult
|}.

(** ** The driver object *)

Section Driver.
Context {P : Platform}.

(** The private members ([_zero] is never written or read; [_address] and
    [_i2cPort] name the one sensor of the [World] below). *)
Record SparkFun_MicroPressure : Type := {
  _eoc : Z;
  _rst : Z;
  _minPsi : float;
  _maxPsi : float;
  _deltaPsi : float;
  _calFactor : float;
  _maxCounts : Z;
  _minCounts : Z;
  _deltaCounts : Z;
  _transfer_function : ascii
}.

(** The [switch] of the constructor: [(_minCounts, _maxCounts)]. *)
Definition transfer_counts (transfer_function : ascii) : Z * Z :=
  if Ascii.eqb transfer_function "A"%char then (1677722, 15099494)
  else if Ascii.eqb transfer_function "B"%char then (419430, 3774874)
  else if Ascii.eqb transfer_function "C"%char then (3355443, 13421773)
  else (1677722, 15099494).

(** The constructor. *)
Definition SparkFun_MicroPressure_ctor
    (eoc_pin rst_pin : Z) (minimumPSI maximumPSI : float)
    (transfer_function : ascii) : SparkFun_MicroPressure :=
  let '(minCounts, maxCounts) := transfer_counts transfer_function in
  let deltaCounts := sub_u32 maxCounts minCounts in
  let deltaPsi := fsub maximumPSI minimumPSI in
  {| _eoc := eoc_pin;
     _rst := rst_pin;
     _minPsi := minimumPSI;
     _maxPsi := maximumPSI;
     _deltaPsi := deltaPsi;
     _calFactor := fdiv deltaPsi (float_of_Z deltaCounts);
     _maxCounts := maxCounts;
     _minCounts := minCounts;
     _deltaCounts := deltaCounts;
     _transfer_function := transfer_function |}.

(** The constructor with every argument defaulted. *)
Definition SparkFun_MicroPressure_default : SparkFun_MicroPressure :=
  SparkFun_MicroPressure_ctor (-1) (-1)
    (float_of_Z MINIMUM_PSI) (float_of_Z MAXIMUM_PSI) "A"%char.

Definition setZero (this : SparkFun_MicroPressure) (zero : Z)
  : SparkFun_MicroPressure :=
  let deltaCounts := sub_u32 (_maxCounts this) zero in
  {| _eoc := _eoc this;
     _rst := _rst this;
     _minPsi := _minPsi this;
     _maxPsi := _maxPsi this;
     _deltaPsi := _deltaPsi this;
     _calFactor := fdiv (_deltaPsi this) (float_of_Z deltaCounts);
     _maxCounts := _maxCounts this;
     _minCounts := zero;
     _deltaCounts := deltaCounts;
     _transfer_function := _transfer_function this |}.

Definition setCalFac (this : SparkFun_MicroPressure) (calFac : float)
  : SparkFun_MicroPressure :=
  let deltaPsi := fmul calFac (float_of_Z (_deltaCounts this)) in
  {| _eoc := _eoc this;
     _rst := _rst this;
     _minPsi := _minPsi this;
     _maxPsi := fadd (_minPsi this) deltaPsi;
     _deltaPsi := deltaPsi;
     _calFactor := calFac;
     _maxCounts := _maxCounts this;
     _minCounts := _minCounts this;
     _deltaCounts := _deltaCounts this;
     _transfer_function := _transfer_function this |}.

End Driver.

(** ** The world outside the driver *)

(** The sensor answers the [k]-th read request on the bus with the bytes
    [sensor k] (none when it does not acknowledge); the end-of-conversion
    line shows [eoc_line k] at the [k]-th [digitalRead]. The rest is what the
    [Wire] object and the clock hold. *)
Record World : Type := {
  sensor : nat -> list byte;
  requests : nat;              (* read requests issued so far *)
  rx : list byte;              (* receive buffer of [Wire] *)
  tx : list Z;                 (* transmit buffer of [Wire] *)
  sent : list (list Z);        (* write transactions, the latest first *)
  eoc_line : nat -> bool;
  samples : nat;               (* [digitalRead] calls so far *)
  clock : nat                  (* milliseconds spent in [delay] *)
}.

(** A computation in the world; [None]: still waiting when the fuel ran
    out. *)
Definition M (A : Type) : Type := World -> option (A * World).

Definition ret {A : Type} (a : A) : M A := fun w => Some (a, w).

Definition bind {A B : Type} (m : M A) (k : A -> M B) : M B :=
  fun w => match m w with
           | Some (a, w') => k a w'
           | None => None
           end.

Definition blocked {A : Type} : M A := fun _ => None.

Declare Scope io_scope.
Delimit Scope io_scope with io.
Notation "x <- m ;; k" := (bind m (fun x => k))
  (at level 61, m at next level, right associativity) : io_scope.
Notation "m ;; k" := (bind m (fun _ => k))
  (at level 61, right associativity) : io_scope.
Local Open Scope io_scope.

(** [Wire.beginTransmission], [write], [endTransmission]. *)
Definition beginTransmission : M unit := fun w =>
  Some (tt, {| sensor := sensor w; requests := requests w; rx := rx w;
               tx := []; sent := sent w;
               eoc_line := eoc_line w; samples := samples w;
               clock := clock w |}).

Definition write (b : Z) : M unit := fun w =>
  Some (tt, {| sensor := sensor w; requests := requests w; rx := rx w;
               tx := tx w ++ [to_uint8 b]; sent := sent w;
               eoc_line := eoc_line w; samples := samples w;
               clock := clock w |}).

Definition endTransmission : M unit := fun w =>
  Some (tt, {| sensor := sensor w; requests := requests w; rx := rx w;
               tx := []; sent := tx w :: sent w;
               eoc_line := eoc_line w; samples := samples w;
               clock := clock w |}).

(** [Wire.requestFrom(_address, quantity)]: the receive buffer is replaced by
    what the sensor sends, at most [quantity] bytes. *)
Definition requestFrom (quantity : nat) : M unit := fun w =>
  Some (tt, {| sensor := sensor w; requests := S (requests w);
               rx := firstn quantity (sensor w (requests w));
               tx := tx w; sent := sent w;
               eoc_line := eoc_line w; samples := samples w;
               clock := clock w |}).

(** [Wire.read()]: the next byte of the receive buffer, [-1] when it is
    empty. *)
Definition read : M Z := fun w =>
  match rx w with
  | [] => Some (-1, w)
  | b :: rest =>
      Some (u8 b, {| sensor := sensor w; requests := requests w; rx := rest;
                     tx := tx w; sent := sent w;
                     eoc_line := eoc_line w; samples := samples w;
                     clock := clock w |})
  end.

Definition digitalRead : M bool := fun w =>
  Some (eoc_line w (samples w),
        {| sensor := sensor w; requests := requests w; rx := rx w;
           tx := tx w; sent := sent w;
           eoc_line := eoc_line w; samples := S (samples w);
           clock := clock w |}).

Definition delay (ms : nat) : M unit := fun w =>
  Some (tt, {| sensor := sensor w; requests := requests w; rx := rx w;
               tx := tx w; sent := sent w;
               eoc_line := eoc_line w; samples := samples w;
               clock := (clock w + ms)%nat |}).

(** ** Reading the sensor *)

(** [readStatus]: the byte read, as a [uint8_t]. *)
Definition readStatus : M Z :=
  requestFrom 1 ;;
  b <- read ;;
  ret (to_uint8 b).

(** The three writes that start a conversion. *)
Definition trigger : M unit :=
  beginTransmission ;;
  write 0xAA ;;
  write 0x00 ;;
  write 0x00 ;;
  endTransmission.

(** [while(!digitalRead(_eoc)) delay(1);] *)
Fixpoint wait_eoc (fuel : nat) : M unit :=
  level <- digitalRead ;;
  if negb level then
    match fuel with
    | O => blocked
    | S fuel' => delay 1 ;; wait_eoc fuel'
    end
  else ret tt.

(** The condition of the status loop:
    [(status&BUSY_FLAG) && (status!=0xFF)]. *)
Definition still_busy (status : Z) : bool :=
  negb (Z.land status BUSY_FLAG =? 0) && negb (status =? 0xFF).

(** [while(still busy) { delay(1); status = readStatus(); }]; the status
    that ends the loop is returned. *)
Fixpoint wait_status (fuel : nat) (status : Z) : M Z :=
  if still_busy status then
    match fuel with
    | O => blocked
    | S fuel' => delay 1 ;; status' <- readStatus ;; wait_status fuel' status'
    end
  else ret status.

(** The [for] loop that assembles the count: [todo] bytes are left to
    read, [i] is the loop variable. *)
Fixpoint read_reading (todo : nat) (i reading : Z) : M Z :=
  match todo with
  | O => ret reading
  | S todo' =>
      b <- read ;;
      let reading := Z.lor reading (to_uint32 b) in
      let reading :=
        if negb (i =? 2) then to_uint32 (Z.shiftl reading 8) else reading in
      read_reading todo' (to_uint8 (i + 1)) reading
  end.

Section Reading.
Context {P : Platform}.

(** Wait for the new reading: the end-of-conversion pin when there is one,
    the status byte otherwise. *)
Definition wait_ready (fuel : nat) (this : SparkFun_MicroPressure) : M unit :=
  if negb (_eoc this =? -1) then wait_eoc fuel
  else (status <- readStatus ;; wait_status fuel status ;; ret tt).

(** Counts to pressure:
    [(float(int32_t(reading) - int32_t(_minCounts)) * _calFactor) + _minPsi]. *)
Definition to_pressure (this : SparkFun_MicroPressure) (reading : Z) : float :=
  fadd (fmul (float_of_Z (sub_i32 (to_int32 reading) (to_int32 (_minCounts this))))
             (_calFactor this))
       (_minPsi this).

(** [pressure * c] for a decimal literal [c], returned as a [float]. *)
Definition scaled (pressure : float) (c : Q) : float :=
  float_of_double (dmul (double_of_float pressure) (double_lit c)).

(** The chain of [if(units == ...)] at the end of [readPressure]. *)
Definition in_units (units : Pressure_Units) (pressure : float) : float :=
  if units =? PSI then pressure
  else if units =? PA then scaled pressure (68947573 # 10000)
  else if units =? KPA then scaled pressure (689476 # 100000)
  else if units =? TORR then scaled pressure (517149 # 10000)
  else if units =? INHG then scaled pressure (203602 # 100000)
  else if units =? ATM then scaled pressure (6805 # 100000)
  else if units =? BAR then scaled pressure (6895 # 100000)
  else pressure.

(** [readPressure] from the read request on: the status check, the count,
    the conversion. *)
Definition fetch (this : SparkFun_MicroPressure) (units : Pressure_Units)
  : M float :=
  requestFrom 4 ;;
  b <- read ;;
  let status := to_uint8 b in
  if negb (Z.land status INTEGRITY_FLAG =? 0)
     || negb (Z.land status MATH_SAT_FLAG =? 0)
  then ret NAN
  else
    reading <- read_reading 3 0 0 ;;
    if units =? RAW then ret (float_of_Z reading)
    else ret (in_units units (to_pressure this reading)).

Definition readPressure (fuel : nat) (this : SparkFun_MicroPressure)
    (units : Pressure_Units) : M float :=
  trigger ;;
  wait_ready fuel this ;;
  fetch this units.

End Reading.

(** The first two steps of [readPressure]: the trigger and the wait. *)
Definition conversion {P : Platform} (fuel : nat)
    (this : SparkFun_MicroPressure) : M unit :=
  trigger ;; wait_ready fuel this.

(** The status that the [k]-th next [readStatus] returns in world [w]
    (0xFF when the sensor sends nothing: [read] gives [-1]). *)
Definition polled (w : World) (k : nat) : Z :=
  match firstn 1 (sensor w (k + requests w)) with
  | [] => to_uint8 (-1)
  | b :: _ => to_uint8 (u8 b)
  end.

(** The 24-bit count that three bytes make, the first the most
    significant. *)
Definition count24 (b1 b2 b3 : byte) : Z :=
  u8 b1 * 2^16 + u8 b2 * 2^8 + u8 b3.

(** ** Calibration states *)

Section Reachable.
Context {P : Platform}.
Variable numeric : float -> Prop.

(** The states that the constructor and then [setZero] and [setCalFac] give,
    the pressures and factors passed being [numeric]. *)
Inductive reachable : SparkFun_MicroPressure -> Prop :=
| reachable_ctor : forall eoc_pin rst_pin minimumPSI maximumPSI tf,
    numeric minimumPSI -> numeric maximumPSI ->
    reachable (SparkFun_MicroPressure_ctor eoc_pin rst_pin minimumPSI maximumPSI tf)
| reachable_setZero : forall this zero,
    reachable this -> is_uint32 zero -> reachable (setZero this zero)
| reachable_setCalFac : forall this calFac,
    reachable this -> numeric calFac -> reachable (setCalFac this calFac).

End Reachable.


(** Finite, for an IEEE float. *)
Definition is_finite (x : spec_float) : Prop :=
  match x with
  | S754_zero _ | S754_finite _ _ _ => True
  | _ => False
  end.

(** The world after a read request whose answer left [buffer] in the
    receive buffer. *)
Definition received (w : World) (buffer : list byte) : World :=
  {| sensor := sensor w; requests := S (requests w); rx := buffer;
     tx := tx w; sent := sent w;
     eoc_line := eoc_line w; samples := samples w; clock := clock w |}.

(** The world after [S d] status polls with [d] delays between them. *)
Definition polled_world (w : World) (d : nat) : World :=
  {| sensor := sensor w; requests := (S d + requests w)%nat; rx := [];
     tx := tx w; sent := sent w;
     eoc_line := eoc_line w; samples := samples w;
     clock := (d + clock w)%nat |}.


(** The world after the trigger command. *)
Definition triggered (w : World) : World :=
  {| sensor := sensor w; requests := requests w; rx := rx w;
     tx := []; sent := [0xAA; 0x00; 0x00] :: sent w;
     eoc_line := eoc_line w; samples := samples w; clock := clock w |}.

(** ** A test bench *)

(** A world in which the sensor answers with [replies], one after the
    other, and then no more, and whose end-of-conversion line rises after
    [low] samples. *)
Definition bench (replies : list (list byte)) (low : nat) : World :=
  {| sensor := fun k => nth k replies [];
     requests := 0; rx := []; tx := []; sent := [];
     eoc_line := fun k => Nat.leb low k;
     samples := 0; clock := 0 |}.

(** Two busy polls, then an unflagged reading of 0x800000 counts. *)
Definition bench_replies : list (list byte) :=
  [[x60]; [x60]; [x40]; [x40; x80; x00; x00]]%byte.

(** An immediate reading with the integrity flag set. *)
Definition flagged_replies : list (list byte) :=
  [[x40]; [x44; x80; x00; x00]]%byte.


(** ** The rest of the driver *)

(** The world after [S d] samples of the end-of-conversion line with [d]
    delays between them. *)
Definition sampled_world (w : World) (d : nat) : World :=
  {| sensor := sensor w; requests := requests w; rx := rx w;
     tx := tx w; sent := sent w;
     eoc_line := eoc_line w; samples := (S d + samples w)%nat;
     clock := (d + clock w)%nat |}.

(** Two worlds in which the sensor and the end-of-conversion line will
    behave alike: they may differ in what the buffers hold, in what was
    sent and in the time. *)
Definition same_device (w w' : World) : Prop :=
  sensor w = sensor w' /\ requests w = requests w'
  /\ eoc_line w = eoc_line w' /\ samples w = samples w'.

(** The same, the receive buffers being equal too. *)
Definition same_bus (w w' : World) : Prop :=
  same_device w w' /\ rx w = rx w'.

(** Two runs that block alike, or return the same value in worlds alike. *)
Definition same_result {A : Type} (o o' : option (A * World)) : Prop :=
  match o, o' with
  | Some (a, w), Some (a', w') => a = a' /\ same_device w w'
  | None, None => True
  | _, _ => False
  end.

(** [w'] comes after [w] with nothing more written to the bus. *)
Definition quiet (w w' : World) : Prop :=
  sensor w' = sensor w /\ eoc_line w' = eoc_line w
  /\ sent w' = sent w /\ tx w' = tx w
  /\ (requests w <= requests w')%nat
  /\ (samples w <= samples w')%nat
  /\ (clock w <= clock w')%nat.

(** Sequences of calls of the two setters. *)
Section Calibrations.
Context {P : Platform}.

Inductive Calibration : Type :=
| SetZero (zero : Z)
| SetCalFac (calFac : float).

Definition calibrate1 (this : SparkFun_MicroPressure) (c : Calibration)
  : SparkFun_MicroPressure :=
  match c with
  | SetZero zero => setZero this zero
  | SetCalFac calFac => setCalFac this calFac
  end.

Definition calibrate (this : SparkFun_MicroPressure) (cs : list Calibration)
  : SparkFun_MicroPressure :=
  fold_left calibrate1 cs this.

End Calibrations.

(** The IEEE float [x] is the integer [z], exactly. *)
Definition denotes (x : spec_float) (z : Z) : Prop :=
  match x with
  | S754_zero _ => z = 0
  | S754_finite s m e => e <= 0 /\ cond_Zopp s (Zpos m) = z * 2 ^ (- e)
  | _ => False
  end.


(** *** [begin] *)

(** [begin] also drives pins and asks the bus for an acknowledgement: the
    board holds the world and, besides, the [pinMode] calls, the
    [digitalWrite] calls with the time of each, the address of the
    transmission under way, and the code that [endTransmission] returns for
    an empty transmission to each address (0 when a device acknowledges). *)
Inductive PinMode : Type := INPUT | OUTPUT.

Record Board : Type := {
  world : World;
  pin_modes : list (Z * PinMode);        (* the latest first *)
  pin_writes : list (Z * bool * nat);    (* the latest first *)
  target : Z;
  probe : Z -> Z
}.

Definition B (A : Type) : Type := Board -> option (A * Board).












(** A world whose sensor is busy for ever and whose end-of-conversion line
    never rises. *)
Definition stuck_world : World :=
  {| sensor := fun _ => [x60]%byte;
     requests := 0; rx := []; tx := []; sent := [];
     eoc_line := fun _ => false;
     samples := 0; clock := 0 |}.

(** A reading of 0x800000 counts for a driver that watches the
    end-of-conversion line. *)
Definition eoc_replies : list (list byte) :=
  [[x40; x80; x00; x00]]%byte.

(** The bench with stale bytes in the buffers, an earlier transaction in
    the log and the clock at 7. *)
Definition stale_bench (replies : list (list byte)) (low : nat) : World :=
  {| sensor := fun k => nth k replies [];
     requests := 0; rx := [xff; xff; xff]%byte; tx := [1];
     sent := [[0xAA; 0x00; 0x00]];
     eoc_line := fun k => Nat.leb low k;
     samples := 0; clock := 7 |}.

(** A reading whose last count byte is missing. *)
Definition short_replies : list (list byte) :=
  [[x40]; [x40; x80; x00]]%byte.

(** * Properties *)

(** ** Machine integers and status bits *)

Lemma u8_range (b : byte) : 0 <= u8 b < 256.
Proof.
  unfold u8. pose proof (Byte.to_N_bounded b). lia.
Qed.

Lemma to_uint8_u8 (b : byte) : to_uint8 (u8 b) = u8 b.
Proof.
  unfold to_uint8. apply Z.mod_small. pose proof (u8_range b).
  change (2^8) with 256. lia.
Qed.

Lemma to_uint32_small (z : Z) : is_uint32 z -> to_uint32 z = z.
Proof. intros H. unfold to_uint32. apply Z.mod_small. exact H. Qed.

Lemma to_int32_small (z : Z) : 0 <= z < 2^31 -> to_int32 z = z.
Proof.
  intros H. unfold to_int32. rewrite Z.mod_small; lia.
Qed.

Lemma sub_i32_exact (a b : Z) :
  - 2^31 <= a - b < 2^31 -> sub_i32 a b = a - b.
Proof.
  intros H. unfold sub_i32, to_int32. rewrite Z.mod_small; lia.
Qed.

Lemma sub_u32_wraps (a b : Z) :
  is_uint32 a -> is_uint32 b -> a < b -> sub_u32 a b = 2^32 - (b - a).
Proof.
  unfold is_uint32, sub_u32, to_uint32. intros Ha Hb Hlt.
  replace (a - b) with (2^32 - (b - a) + (-1) * 2^32) by ring.
  rewrite Z.mod_add by lia. apply Z.mod_small. lia.
Qed.

Lemma sub_u32_plain (a b : Z) :
  is_uint32 a -> is_uint32 b -> b <= a -> sub_u32 a b = a - b.
Proof.
  unfold is_uint32, sub_u32, to_uint32. intros Ha Hb Hle.
  apply Z.mod_small. lia.
Qed.

(** A mask of one bit selects that bit. *)
Lemma land_bit_eqb (s : Z) (k : Z) :
  0 <= k -> (Z.land s (2^k) =? 0) = negb (Z.testbit s k).
Proof.
  intros Hk. destruct (Z.testbit s k) eqn:Hb; simpl.
  - apply Z.eqb_neq. intros H0.
    assert (Ht : Z.testbit (Z.land s (2^k)) k = true).
    { rewrite Z.land_spec, Hb, Z.pow2_bits_true by lia. reflexivity. }
    rewrite H0, Z.bits_0 in Ht. discriminate.
  - apply Z.eqb_eq. apply Z.bits_inj'. intros n Hn.
    rewrite Z.land_spec, Z.bits_0.
    destruct (Z.eq_dec n k) as [->|Hne].
    + rewrite Hb. reflexivity.
    + rewrite Z.pow2_bits_false by lia. apply andb_false_r.
Qed.

Lemma still_busy_bits (s : Z) :
  still_busy s = Z.testbit s 5 && negb (s =? 0xFF).
Proof.
  unfold still_busy, BUSY_FLAG. change 0x20 with (2^5).
  rewrite land_bit_eqb by lia. rewrite negb_involutive. reflexivity.
Qed.

(** ** The calibration model *)

Section CalibrationFacts.
Context {P : Platform}.

(** C2. The constructor sets the count bounds from the table of the
    transfer functions: 'A' gives 1677722 and 15099494, 'B' gives 419430 and
    3774874, 'C' gives 3355443 and 13421773, and any other selector the
    values of 'A'; the span of the counts, the span of the pressures and the
    scale factor (their quotient) are derived from them. *)
Theorem ctor_calibration_table :
  forall (eoc_pin rst_pin : Z) (lo hi : float) (tf : ascii),
    let this := SparkFun_MicroPressure_ctor eoc_pin rst_pin lo hi tf in
    (tf = "A"%char -> _minCounts this = 1677722 /\ _maxCounts this = 15099494)
    /\ (tf = "B"%char -> _minCounts this = 419430 /\ _maxCounts this = 3774874)
    /\ (tf = "C"%char -> _minCounts this = 3355443 /\ _maxCounts this = 13421773)
    /\ (tf <> "A"%char -> tf <> "B"%char -> tf <> "C"%char ->
        _minCounts this = 1677722 /\ _maxCounts this = 15099494)
    /\ _deltaCounts this = _maxCounts this - _minCounts this
    /\ _minPsi this = lo /\ _maxPsi this = hi
    /\ _deltaPsi this = fsub hi lo
    /\ _calFactor this = fdiv (_deltaPsi this) (float_of_Z (_deltaCounts this)).
Proof.
  intros eoc_pin rst_pin lo hi tf this. subst this.
  unfold SparkFun_MicroPressure_ctor, transfer_counts.
  destruct (Ascii.eqb_spec tf "A") as [->|HA].
  { cbn. repeat split; intros; try reflexivity; try discriminate; congruence. }
  destruct (Ascii.eqb_spec tf "B") as [->|HB].
  { cbn. repeat split; intros; try reflexivity; try discriminate; congruence. }
  destruct (Ascii.eqb_spec tf "C") as [->|HC].
  { cbn. repeat split; intros; try reflexivity; try discriminate; congruence. }
  cbn. repeat split; intros; try reflexivity; congruence.
Qed.

(** C6. [setZero(z)] makes [z] the lower count bound and recomputes the span
    of the counts (a [uint32_t] subtraction) and the scale factor; the
    pressure bounds, their span and the upper count bound stay. *)
Theorem setZero_frame :
  forall (this : SparkFun_MicroPressure) (z : Z),
    let this' := setZero this z in
    _minCounts this' = z
    /\ _deltaCounts this' = sub_u32 (_maxCounts this') (_minCounts this')
    /\ _calFactor this' = fdiv (_deltaPsi this') (float_of_Z (_deltaCounts this'))
    /\ _minPsi this' = _minPsi this
    /\ _maxPsi this' = _maxPsi this
    /\ _deltaPsi this' = _deltaPsi this
    /\ _maxCounts this' = _maxCounts this.
Proof.
  intros this z. cbn. repeat split; reflexivity.
Qed.

(** C7. [setCalFac(f)] makes [f] the scale factor and recomputes the span of
    the pressures, [f * deltaCounts], and the upper pressure bound,
    [minPressure + deltaPressure]; the count bounds, their span and the lower
    pressure bound stay. *)
Theorem setCalFac_frame :
  forall (this : SparkFun_MicroPressure) (f : float),
    let this' := setCalFac this f in
    _calFactor this' = f
    /\ _deltaPsi this' = fmul f (float_of_Z (_deltaCounts this'))
    /\ _maxPsi this' = fadd (_minPsi this') (_deltaPsi this')
    /\ _minCounts this' = _minCounts this
    /\ _maxCounts this' = _maxCounts this
    /\ _deltaCounts this' = _deltaCounts this
    /\ _minPsi this' = _minPsi this.
Proof.
  intros this f. cbn. repeat split; reflexivity.
Qed.

(** The span of the counts after [setZero] is the plain difference when the
    new zero is not above the upper bound. *)
Lemma setZero_plain_span (this : SparkFun_MicroPressure) (z : Z) :
  is_uint32 (_maxCounts this) -> is_uint32 z -> z <= _maxCounts this ->
  _deltaCounts (setZero this z) = _maxCounts this - z.
Proof.
  intros Hm Hz Hle. cbn. apply sub_u32_plain; assumption.
Qed.

(** The upper count bound is one of the table's, whatever was called. *)
Lemma reachable_maxCounts (numeric : float -> Prop) (this : SparkFun_MicroPressure) :
  reachable numeric this ->
  _maxCounts this = 15099494 \/ _maxCounts this = 3774874
  \/ _maxCounts this = 13421773.
Proof.
  induction 1 as [e r lo hi tf _ _ | this z _ IH _ | this f _ IH _].
  - unfold SparkFun_MicroPressure_ctor, transfer_counts.
    destruct (Ascii.eqb tf "A"); [cbn; auto|].
    destruct (Ascii.eqb tf "B"); [cbn; auto|].
    destruct (Ascii.eqb tf "C"); cbn; auto.
  - exact IH.
  - exact IH.
Qed.

End CalibrationFacts.

(** For every uint32 zero above the upper bound the span wraps, and exceeds
    the upper bound itself. *)
Lemma setZero_wrapped_span {P : Platform} (this : SparkFun_MicroPressure) (z : Z) :
  is_uint32 (_maxCounts this) -> is_uint32 z -> _maxCounts this < z ->
  _deltaCounts (setZero this z) = (_maxCounts this - z) mod 2^32
  /\ _deltaCounts (setZero this z) = 2^32 - (z - _maxCounts this)
  /\ _maxCounts this < _deltaCounts (setZero this z).
Proof.
  intros Hm Hz Hlt. cbn [setZero _deltaCounts].
  split; [reflexivity|].
  rewrite sub_u32_wraps by assumption.
  unfold is_uint32 in *. lia.
Qed.

(** C10. [setZero] does not compare its argument with the upper count bound:
    for a zero above it, here one count above on the default sensor, the
    span of the counts is [(maxCounts - z) mod 2^32], an enormous positive
    number (2^32 - 1), and the scale factor, positive, falls from about
    1.9e-6 to below 2^-27: the span is not negative and nothing is
    reported. *)
Theorem setZero_above_max_wraps :
  exists z : Z,
    let this := SparkFun_MicroPressure_default (P := ARM) in
    let this' := setZero this z in
    is_uint32 z
    /\ _maxCounts this < z
    /\ _deltaCounts this' = (_maxCounts this - z) mod 2^32
    /\ _deltaCounts this' = 4294967295
    /\ _minCounts this' = z
    /\ SFltb (S754_zero false) (_calFactor this') = true
    /\ SFltb (_calFactor this') (S754_finite false 8388608 (-50)) = true
    /\ SFltb (S754_finite false 8388608 (-43)) (_calFactor this) = true.
Proof.
  exists 15099495. cbv zeta. unfold is_uint32.
  repeat split; try reflexivity; vm_compute; congruence.
Qed.

(** ** The read protocol *)

Lemma lor_shift_byte (x b : Z) :
  0 <= x -> 0 <= b < 256 -> Z.lor (Z.shiftl x 8) b = x * 256 + b.
Proof.
  intros Hx Hb. rewrite Z.shiftl_mul_pow2 by lia. change (2^8) with 256.
  assert (Hl : Z.land (x * 256) b = 0).
  { apply Z.bits_inj'. intros n Hn. rewrite Z.land_spec, Z.bits_0.
    destruct (Z_lt_le_dec n 8) as [Hlt|Hge].
    - change 256 with (2^8). rewrite Z.mul_pow2_bits_low by lia. reflexivity.
    - assert (Hbn : Z.testbit b n = false).
      { destruct (Z.eq_dec b 0) as [->|Hb0]; [apply Z.bits_0|].
        apply Z.bits_above_log2; [lia|].
        apply Z.log2_lt_pow2; [lia|].
        apply Z.lt_le_trans with (2^8); [change (2^8) with 256; lia|].
        apply Z.pow_le_mono_r; lia. }
      rewrite Hbn. apply andb_false_r. }
  pose proof (Z.add_lor_land (x * 256) b) as Hadd. rewrite Hl in Hadd. lia.
Qed.

Lemma count24_range (b1 b2 b3 : byte) : 0 <= count24 b1 b2 b3 < 2^24.
Proof.
  unfold count24. pose proof (u8_range b1). pose proof (u8_range b2).
  pose proof (u8_range b3). lia.
Qed.

Lemma assemble_count (b1 b2 b3 : byte) :
  Z.lor (to_uint32 (Z.shiftl
           (Z.lor (to_uint32 (Z.shiftl (Z.lor 0 (to_uint32 (u8 b1))) 8))
                  (to_uint32 (u8 b2))) 8))
        (to_uint32 (u8 b3))
  = count24 b1 b2 b3.
Proof.
  pose proof (u8_range b1) as H1. pose proof (u8_range b2) as H2.
  pose proof (u8_range b3) as H3.
  rewrite !(to_uint32_small (u8 _)) by (unfold is_uint32; lia).
  rewrite Z.lor_0_l.
  rewrite (Z.shiftl_mul_pow2 (u8 b1)) by lia.
  rewrite (to_uint32_small (u8 b1 * 2^8)) by (unfold is_uint32; lia).
  rewrite <- (Z.shiftl_mul_pow2 (u8 b1)) by lia.
  rewrite lor_shift_byte by lia.
  rewrite (Z.shiftl_mul_pow2 (u8 b1 * 256 + u8 b2)) by lia.
  rewrite (to_uint32_small ((u8 b1 * 256 + u8 b2) * 2^8)) by (unfold is_uint32; lia).
  rewrite <- (Z.shiftl_mul_pow2 (u8 b1 * 256 + u8 b2)) by lia.
  rewrite lor_shift_byte by lia.
  unfold count24. lia.
Qed.

Section FetchFacts.
Context {P : Platform}.

Lemma fetch_clear (this : SparkFun_MicroPressure) (units : Pressure_Units)
    (w : World) (s b1 b2 b3 : byte) (rest : list byte) :
  sensor w (requests w) = s :: b1 :: b2 :: b3 :: rest ->
  Z.testbit (u8 s) 2 = false -> Z.testbit (u8 s) 0 = false ->
  fetch this units w =
    Some (if units =? RAW then float_of_Z (count24 b1 b2 b3)
          else in_units units (to_pressure this (count24 b1 b2 b3)),
          received w []).
Proof.
  intros Hs H2 H0.
  destruct w as [sen req rxb txb snt eoc smp clk].
  cbn [sensor requests] in Hs.
  unfold fetch, bind, requestFrom, read, ret, received.
  cbn [sensor requests rx tx sent eoc_line samples clock].
  rewrite Hs. cbn [firstn].
  rewrite to_uint8_u8.
  unfold INTEGRITY_FLAG, MATH_SAT_FLAG.
  change 0x04 with (2^2). change 0x01 with (2^0).
  rewrite !land_bit_eqb by lia. rewrite H2, H0. cbn [negb orb].
  unfold read_reading, bind, read, ret.
  cbn [sensor requests rx tx sent eoc_line samples clock].
  change (to_uint8 (0 + 1)) with 1. change (to_uint8 (1 + 1)) with 2.
  change (negb (0 =? 2)) with true. change (negb (1 =? 2)) with true.
  change (negb (2 =? 2)) with false. cbv iota.
  rewrite assemble_count.
  destruct (units =? RAW); reflexivity.
Qed.

Lemma fetch_flagged (this : SparkFun_MicroPressure) (units : Pressure_Units)
    (w : World) (s : byte) (rest : list byte) :
  sensor w (requests w) = s :: rest ->
  Z.testbit (u8 s) 2 = true \/ Z.testbit (u8 s) 0 = true ->
  fetch this units w = Some (NAN, received w (firstn 3 rest)).
Proof.
  intros Hs Hflag.
  destruct w as [sen req rxb txb snt eoc smp clk].
  cbn [sensor requests] in Hs.
  unfold fetch, bind, requestFrom, read, ret, received.
  cbn [sensor requests rx tx sent eoc_line samples clock].
  rewrite Hs. cbn [firstn].
  rewrite to_uint8_u8.
  unfold INTEGRITY_FLAG, MATH_SAT_FLAG.
  change 0x04 with (2^2). change 0x01 with (2^0).
  rewrite !land_bit_eqb by lia. rewrite !negb_involutive.
  destruct Hflag as [-> | ->]; [reflexivity | rewrite orb_true_r; reflexivity].
Qed.

(** A sensor that sends nothing reads as status 0xFF, which has both
    flags set. *)
Lemma fetch_no_reply (this : SparkFun_MicroPressure) (units : Pressure_Units)
    (w : World) :
  sensor w (requests w) = [] ->
  fetch this units w = Some (NAN, received w []).
Proof.
  intros Hs.
  destruct w as [sen req rxb txb snt eoc smp clk].
  cbn [sensor requests] in Hs.
  unfold fetch, bind, requestFrom, read, ret, received.
  cbn [sensor requests rx tx sent eoc_line samples clock].
  rewrite Hs. reflexivity.
Qed.

End FetchFacts.

(** ** The readiness wait *)

Lemma readStatus_polled (w : World) :
  readStatus w = Some (polled w 0, polled_world w 0).
Proof.
  destruct w as [sen req rxb txb snt eoc smp clk].
  unfold readStatus, bind, requestFrom, read, ret, polled, polled_world.
  cbn [sensor requests rx tx sent eoc_line samples clock Nat.add].
  destruct (sen req) as [|b l]; reflexivity.
Qed.

Lemma poll_step (w : World) (j : nat) :
  (delay 1 ;; readStatus) (polled_world w j)
  = Some (polled w (S j), polled_world w (S j)).
Proof.
  unfold bind at 1. unfold delay at 1.
  rewrite readStatus_polled. f_equal. f_equal.
  unfold polled_world. cbn [sensor requests rx tx sent eoc_line samples clock].
  f_equal. lia.
Qed.

Lemma wait_status_unfold (fuel : nat) (status : Z) :
  wait_status fuel status =
  if still_busy status then
    match fuel with
    | O => blocked
    | S fuel' => delay 1 ;; status' <- readStatus ;; wait_status fuel' status'
    end
  else ret status.
Proof. destruct fuel; reflexivity. Qed.

(** The loop ends at the first status that is not busy, after as many
    delays as there were busy ones. *)
Lemma wait_status_ends (w : World) :
  forall (d fuel j : nat),
    (d <= fuel)%nat ->
    (forall k, (k < d)%nat -> still_busy (polled w (j + k)) = true) ->
    still_busy (polled w (j + d)) = false ->
    wait_status fuel (polled w j) (polled_world w j)
    = Some (polled w (j + d), polled_world w (j + d)).
Proof.
  induction d as [|d IH]; intros fuel j Hfuel Hbusy Hend.
  - rewrite Nat.add_0_r in *. rewrite wait_status_unfold, Hend. reflexivity.
  - destruct fuel as [|fuel]; [lia|].
    rewrite wait_status_unfold.
    pose proof (Hbusy 0%nat ltac:(lia)) as H0. rewrite Nat.add_0_r in H0.
    rewrite H0.
    pose proof (poll_step w j) as Hstep. unfold bind in Hstep |- *.
    destruct (delay 1 (polled_world w j)) as [[[] w1]|]; [|discriminate].
    rewrite Hstep.
    replace (j + S d)%nat with (S j + d)%nat by lia.
    apply IH.
    + lia.
    + intros k Hk. replace (S j + k)%nat with (j + S k)%nat by lia.
      apply Hbusy. lia.
    + replace (S j + d)%nat with (j + S d)%nat by lia. exact Hend.
Qed.

(** While every status is busy the loop goes on: the fuel runs out. *)
Lemma wait_status_goes_on (w : World) :
  forall (fuel j : nat),
    (forall k, (k <= fuel)%nat -> still_busy (polled w (j + k)) = true) ->
    wait_status fuel (polled w j) (polled_world w j) = None.
Proof.
  induction fuel as [|fuel IH]; intros j Hbusy.
  - rewrite wait_status_unfold.
    pose proof (Hbusy 0%nat ltac:(lia)) as H0. rewrite Nat.add_0_r in H0.
    rewrite H0. reflexivity.
  - rewrite wait_status_unfold.
    pose proof (Hbusy 0%nat ltac:(lia)) as H0. rewrite Nat.add_0_r in H0.
    rewrite H0.
    pose proof (poll_step w j) as Hstep. unfold bind in Hstep |- *.
    destruct (delay 1 (polled_world w j)) as [[[] w1]|]; [|discriminate].
    rewrite Hstep. apply IH.
    intros k Hk. replace (S j + k)%nat with (j + S k)%nat by lia.
    apply Hbusy. lia.
Qed.

Lemma still_busy_true (s : Z) :
  Z.testbit s 5 = true /\ s <> 0xFF -> still_busy s = true.
Proof.
  intros [Hb Hne]. rewrite still_busy_bits, Hb.
  apply Z.eqb_neq in Hne. rewrite Hne. reflexivity.
Qed.

Lemma still_busy_false (s : Z) :
  Z.testbit s 5 = false \/ s = 0xFF -> still_busy s = false.
Proof.
  intros [Hb | ->]; [rewrite still_busy_bits, Hb|]; reflexivity.
Qed.

Section ReadinessFacts.
Context {P : Platform}.

(** C8. Without an end-of-conversion pin the wait polls the status exactly
    while its busy flag (bit 5) is set and it is not 0xFF: if the first [d]
    statuses are such and the next has the busy bit clear, or is 0xFF, the
    wait ends there, after [d + 1] status reads and [d] delays; and while
    all the statuses are such the wait goes on. *)
Theorem status_poll_wait :
  forall (this : SparkFun_MicroPressure) (fuel : nat) (w : World),
    _eoc this = -1 ->
    (forall d : nat,
        (d <= fuel)%nat ->
        (forall k, (k < d)%nat ->
                   Z.testbit (polled w k) 5 = true /\ polled w k <> 0xFF) ->
        Z.testbit (polled w d) 5 = false \/ polled w d = 0xFF ->
        wait_ready fuel this w = Some (tt, polled_world w d))
    /\ ((forall k, (k <= fuel)%nat ->
                   Z.testbit (polled w k) 5 = true /\ polled w k <> 0xFF) ->
        wait_ready fuel this w = None).
Proof.
  intros this fuel w Heoc.
  assert (Hmode : wait_ready fuel this w
                  = match wait_status fuel (polled w 0) (polled_world w 0) with
                    | Some (_, w') => Some (tt, w')
                    | None => None
                    end).
  { unfold wait_ready. rewrite Heoc, Z.eqb_refl. cbn [negb].
    unfold bind. rewrite readStatus_polled. reflexivity. }
  split.
  - intros d Hd Hbusy Hend. rewrite Hmode.
    rewrite (wait_status_ends w d fuel 0 Hd).
    + reflexivity.
    + intros k Hk. apply still_busy_true. apply Hbusy. exact Hk.
    + apply still_busy_false. exact Hend.
  - intros Hbusy. rewrite Hmode.
    rewrite (wait_status_goes_on w fuel 0).
    + reflexivity.
    + intros k Hk. apply still_busy_true. apply Hbusy. exact Hk.
Qed.

End ReadinessFacts.

(** ** The reading *)

Section ReadingFacts.
Context {P : Platform}.

(** The trigger command is the one transaction [0xAA 0x00 0x00]. *)
Lemma trigger_triggered (w : World) : trigger w = Some (tt, triggered w).
Proof. destruct w. reflexivity. Qed.

Lemma readPressure_fetch (fuel : nat) (this : SparkFun_MicroPressure)
    (units : Pressure_Units) (w w1 : World) :
  conversion fuel this w = Some (tt, w1) ->
  readPressure fuel this units w = fetch this units w1.
Proof.
  unfold conversion, readPressure, bind.
  destruct (trigger w) as [[[] w0]|]; [|discriminate].
  destruct (wait_ready fuel this w0) as [[[] w0']|]; [|discriminate].
  intros H. injection H as ->. reflexivity.
Qed.

(** The wait looks at the end-of-conversion pin of the object only. *)
Lemma conversion_eoc (fuel : nat) (this this' : SparkFun_MicroPressure) :
  _eoc this' = _eoc this -> conversion fuel this' = conversion fuel this.
Proof.
  intros H. unfold conversion, wait_ready. rewrite H. reflexivity.
Qed.

(** Once the wait is over nothing blocks and nothing fails: a float is
    returned. *)
Lemma read_reading_total (todo : nat) :
  forall (i reading : Z) (w : World),
    exists (v : Z) (w' : World), read_reading todo i reading w = Some (v, w').
Proof.
  induction todo as [|todo IH]; intros i reading w.
  - exists reading, w. reflexivity.
  - cbn [read_reading]. unfold bind, read.
    destruct (rx w) as [|b l]; apply IH.
Qed.

Lemma fetch_total (this : SparkFun_MicroPressure) (units : Pressure_Units)
    (w : World) :
  exists (v : float) (w' : World), fetch this units w = Some (v, w').
Proof.
  unfold fetch, bind, requestFrom.
  destruct (read _) as [[b w0]|] eqn:Hread.
  - destruct (_ || _).
    + eexists _, _. reflexivity.
    + destruct (read_reading_total 3 0 0 w0) as (v & w' & ->).
      destruct (units =? RAW); eexists _, _; reflexivity.
  - unfold read in Hread. destruct (rx _); discriminate.
Qed.

(** An out-of-range value of the unit is treated as PSI. *)
Lemma in_units_other (u : Pressure_Units) (p : float) :
  u < 0 \/ 7 < u -> in_units u p = p.
Proof.
  intros H. unfold in_units, PSI, PA, KPA, TORR, INHG, ATM, BAR.
  repeat match goal with
         | |- context [?a =? ?b] =>
             let E := fresh in
             destruct (Z.eqb_spec a b) as [E|E]; [lia|]
         end.
  reflexivity.
Qed.

(** C4. When the status byte of the four-byte read has the memory-integrity
    bit (bit 2) or the math-saturation bit (bit 0) set, [readPressure]
    returns [NAN], whatever the unit and whatever follows the status byte;
    the count bytes are left unread. [NAN] is the one signal of the error:
    once the wait is over [readPressure] returns, for every unit, a [float]
    and nothing else. *)
Theorem readPressure_flagged_nan :
  forall (this : SparkFun_MicroPressure) (units : Pressure_Units)
         (fuel : nat) (w w1 : World) (s : byte) (rest : list byte),
    conversion fuel this w = Some (tt, w1) ->
    sensor w1 (requests w1) = s :: rest ->
    Z.testbit (u8 s) 2 = true \/ Z.testbit (u8 s) 0 = true ->
    readPressure fuel this units w = Some (NAN, received w1 (firstn 3 rest))
    /\ (forall units' : Pressure_Units,
           exists (v : float) (w2 : World),
             readPressure fuel this units' w = Some (v, w2)).
Proof.
  intros this units fuel w w1 s rest Hready Hreply Hflag. split.
  - rewrite (readPressure_fetch _ _ _ _ _ Hready).
    apply (fetch_flagged this units w1 s rest); assumption.
  - intros units'. rewrite (readPressure_fetch _ _ _ _ _ Hready).
    apply fetch_total.
Qed.

(** C9. Asking for RAW does not skip the status check: with the integrity
    or the saturation bit set the result is [NAN] for RAW too, and the count
    bytes are not even read, the check coming first. *)
Theorem readPressure_raw_flagged_nan :
  forall (this : SparkFun_MicroPressure) (fuel : nat) (w w1 : World)
         (s : byte) (rest : list byte),
    conversion fuel this w = Some (tt, w1) ->
    sensor w1 (requests w1) = s :: rest ->
    Z.testbit (u8 s) 2 = true \/ Z.testbit (u8 s) 0 = true ->
    readPressure fuel this RAW w = Some (NAN, received w1 (firstn 3 rest))
    /\ rx (received w1 (firstn 3 rest)) = firstn 3 rest.
Proof.
  intros this fuel w w1 s rest Hready Hreply Hflag. split.
  - rewrite (readPressure_fetch _ _ _ _ _ Hready).
    apply (fetch_flagged this RAW w1 s rest); assumption.
  - reflexivity.
Qed.

(** C5. For a reading that passed the status check, with [p] the base (PSI)
    pressure of its count: PSI gives [p], and PA, KPA, TORR, INHG, ATM and
    BAR give [p] times 6894.7573, 6.89476, 51.7149, 2.03602, 0.06805 and
    0.06895; RAW gives the count itself as a float, whatever the
    calibration of the object; any value that is none of the enumerators
    gives [p], as PSI. *)
Theorem readPressure_units :
  forall (this : SparkFun_MicroPressure) (fuel : nat) (w w1 : World)
         (s b1 b2 b3 : byte) (rest : list byte),
    conversion fuel this w = Some (tt, w1) ->
    sensor w1 (requests w1) = s :: b1 :: b2 :: b3 :: rest ->
    Z.testbit (u8 s) 2 = false ->
    Z.testbit (u8 s) 0 = false ->
    let r := count24 b1 b2 b3 in
    let p := to_pressure this r in
    let times (c : Q) :=
      float_of_double (dmul (double_of_float p) (double_lit c)) in
    let returns (u : Pressure_Units) (v : float) :=
      readPressure fuel this u w = Some (v, received w1 []) in
    returns PSI p
    /\ returns PA (times (68947573 # 10000))
    /\ returns KPA (times (689476 # 100000))
    /\ returns TORR (times (517149 # 10000))
    /\ returns INHG (times (203602 # 100000))
    /\ returns ATM (times (6805 # 100000))
    /\ returns BAR (times (6895 # 100000))
    /\ returns RAW (float_of_Z r)
    /\ (forall this' : SparkFun_MicroPressure,
           _eoc this' = _eoc this ->
           readPressure fuel this' RAW w = Some (float_of_Z r, received w1 []))
    /\ (forall u : Pressure_Units, u < 0 \/ 7 < u -> returns u p).
Proof.
  intros this fuel w w1 s b1 b2 b3 rest Hready Hreply H2 H0 r p times returns.
  assert (Hany : forall this' u,
             _eoc this' = _eoc this ->
             readPressure fuel this' u w
             = Some (if u =? RAW then float_of_Z r
                     else in_units u (to_pressure this' r), received w1 [])).
  { intros this' u Heoc.
    assert (Hready' : conversion fuel this' w = Some (tt, w1)).
    { rewrite (conversion_eoc fuel this this' Heoc). exact Hready. }
    rewrite (readPressure_fetch _ _ _ _ _ Hready').
    apply (fetch_clear this' u w1 s b1 b2 b3 rest); assumption. }
  subst returns. cbv beta.
  repeat split; try (rewrite (Hany this _ eq_refl); reflexivity).
  - intros this' Heoc. rewrite (Hany this' RAW Heoc). reflexivity.
  - intros u Hu. rewrite (Hany this u eq_refl).
    assert (Hraw : (u =? RAW) = false) by (apply Z.eqb_neq; unfold RAW; lia).
    rewrite Hraw, in_units_other by exact Hu. reflexivity.
Qed.


End ReadingFacts.

(** ** The endpoints of the calibration, in exact arithmetic *)








(** ** The endpoints of the calibration, in binary32 *)



Lemma SFeqb_refl_finite (x : spec_float) : is_finite x -> SFeqb x x = true.
Proof.
  destruct x as [s|s| |s m e]; cbn; try contradiction; intros _.
  - reflexivity.
  - unfold SFeqb, SFcompare. rewrite Z.compare_refl.
    assert (Hm : Pos.compare_cont Eq m m = Eq) by apply Pos.compare_cont_refl.
    rewrite Hm. destruct s; reflexivity.
Qed.

Section Binary32.
Variables dprec demax : Z.

(** X19. In binary32, with a finite scale factor and a finite lower
    pressure bound, the conversion of [minCounts] compares equal to the
    lower bound, in every state. *)
Lemma min_endpoint_binary32 (this : @SparkFun_MicroPressure (IEEE dprec demax)) :
  is_finite (_calFactor this) -> is_finite (_minPsi this) ->
  SFeqb (to_pressure this (_minCounts this)) (_minPsi this) = true.
Proof.
  intros Hcal Hmin. unfold to_pressure, sub_i32. rewrite Z.sub_diag.
  change (to_int32 0) with 0.
  change (float_of_Z 0) with (S754_zero false).
  change (@fmul (IEEE dprec demax)) with (SFmul 24 128).
  change (@fadd (IEEE dprec demax)) with (SFadd 24 128).
  destruct (_calFactor this) as [sc|sc| |sc mc ec]; try contradiction;
    destruct (_minPsi this) as [sm|sm| |sm mm em] eqn:E; try contradiction;
    cbn [SFmul SFadd xorb].
  - destruct sc, sm; reflexivity.
  - apply SFeqb_refl_finite. exact I.
  - destruct sc, sm; reflexivity.
  - apply SFeqb_refl_finite. exact I.
Qed.


End Binary32.

(** The default sensor, 0 to 25 PSI with transfer function A: 1677722
    counts are 0.0 PSI and 15099494 counts are 25.0 PSI, to the bit. *)
Lemma default_endpoints_binary32 :
  let this := SparkFun_MicroPressure_default (P := ARM) in
  to_pressure this 1677722 = S754_zero false
  /\ to_pressure this 15099494 = float_of_Z 25
  /\ _minPsi this = S754_zero false
  /\ _maxPsi this = float_of_Z 25.
Proof. vm_compute. repeat split. Qed.

(** ** The unit factors *)

(** In exact arithmetic [pressure * c] is the product with the literal. *)
Lemma scaled_exact (p : Qc) (c : Q) :
  scaled (P := Exact) (Some p) c = Some (p * Q2Qc c)%Qc.
Proof. reflexivity. Qed.

(** 1.0 PSI in each unit, in binary32: the float nearest to the factor,
    whether [double] is binary64 or binary32. *)
Lemma one_psi_binary32 :
  forall u c,
    In (u, c) [(PA, 68947573 # 10000); (KPA, 689476 # 100000);
               (TORR, 517149 # 10000); (INHG, 203602 # 100000);
               (ATM, 6805 # 100000); (BAR, 6895 # 100000)] ->
    in_units (P := ARM) u (float_of_Z 1) = SF_of_Q 24 128 c
    /\ in_units (P := AVR) u (float_of_Z 1) = SF_of_Q 24 128 c.
Proof.
  intros u c Hin. cbn [In] in Hin.
  repeat (destruct Hin as [Heq | Hin];
          [injection Heq as <- <-; split; vm_compute; reflexivity|]).
  contradiction.
Qed.

(** ** Beyond the valid calibrations *)




(** ** The theorems at work on the bench *)



Lemma readPressure_flagged_nan_witness :
  let this := SparkFun_MicroPressure_default (P := ARM) in
  let w := bench flagged_replies 0 in
  let w1 := polled_world (triggered w) 0 in
  readPressure 0 this KPA w = Some (NAN, received w1 [x80; x00; x00]%byte)
  /\ (forall units' : Pressure_Units,
         exists (v : float) (w2 : World),
           readPressure 0 this units' w = Some (v, w2)).
Proof.
  intros this w w1.
  apply (readPressure_flagged_nan this KPA 0 w w1 x44 [x80; x00; x00]%byte).
  - vm_compute. reflexivity.
  - reflexivity.
  - left. reflexivity.
Defined.

Lemma readPressure_raw_flagged_nan_witness :
  let this := SparkFun_MicroPressure_default (P := ARM) in
  let w := bench flagged_replies 0 in
  let w1 := polled_world (triggered w) 0 in
  readPressure 0 this RAW w = Some (NAN, received w1 [x80; x00; x00]%byte)
  /\ rx (received w1 [x80; x00; x00]%byte) = [x80; x00; x00]%byte.
Proof.
  intros this w w1.
  apply (readPressure_raw_flagged_nan this 0 w w1 x44 [x80; x00; x00]%byte).
  - vm_compute. reflexivity.
  - reflexivity.
  - left. reflexivity.
Defined.

Lemma readPressure_units_witness :
  let this := SparkFun_MicroPressure_default (P := ARM) in
  let w := bench bench_replies 0 in
  let w1 := polled_world (triggered w) 2 in
  readPressure 4 this PSI w
  = Some (to_pressure this (count24 x80 x00 x00), received w1 [])
  /\ readPressure 4 this RAW w
     = Some (float_of_Z (count24 x80 x00 x00), received w1 []).
Proof.
  intros this w w1.
  assert (Hready : conversion 4 this w = Some (tt, w1))
    by (vm_compute; reflexivity).
  pose proof (readPressure_units this 4 w w1 x40 x80 x00 x00 []
                Hready eq_refl eq_refl eq_refl) as H.
  cbv zeta in H.
  destruct H as (Hpsi & _ & _ & _ & _ & _ & _ & Hraw & _).
  split; [exact Hpsi | exact Hraw].
Defined.

Lemma status_poll_wait_witness :
  let this := SparkFun_MicroPressure_default (P := ARM) in
  let w := bench bench_replies 0 in
  _eoc this = -1
  /\ wait_ready 4 this w = Some (tt, polled_world w 2)
  /\ wait_ready 1 this w = None.
Proof.
  intros this w. split; [reflexivity|].
  destruct (status_poll_wait this 4 w eq_refl) as [Hends _].
  destruct (status_poll_wait this 1 w eq_refl) as [_ Hgoes].
  split.
  - apply (Hends 2%nat).
    + lia.
    + intros k Hk. destruct k as [|[|k]]; [| |lia];
        (split; [reflexivity | discriminate]).
    + left. reflexivity.
  - apply Hgoes. intros k Hk. destruct k as [|[|k]]; [| |lia];
      (split; [reflexivity | discriminate]).
Defined.

(** * More of the driver *)

(** ** The wait on the end-of-conversion pin *)

Lemma wait_eoc_unfold (fuel : nat) :
  wait_eoc fuel =
  (level <- digitalRead ;;
   if negb level then
     match fuel with
     | O => blocked
     | S fuel' => delay 1 ;; wait_eoc fuel'
     end
   else ret tt).
Proof. destruct fuel; reflexivity. Qed.

Lemma wait_eoc_ends (w : World) :
  forall (d fuel j : nat) (w0 : World),
    (d <= fuel)%nat ->
    (forall k, (k < d)%nat -> eoc_line w (j + k + samples w) = false) ->
    eoc_line w (j + d + samples w) = true ->
    w0 = {| sensor := sensor w; requests := requests w; rx := rx w;
            tx := tx w; sent := sent w; eoc_line := eoc_line w;
            samples := (j + samples w)%nat; clock := (j + clock w)%nat |} ->
    wait_eoc fuel w0 = Some (tt, sampled_world w (j + d)).
Proof.
  induction d as [|d IH]; intros fuel j w0 Hfuel Hlow Hhigh ->.
  - rewrite Nat.add_0_r in *. rewrite wait_eoc_unfold.
    unfold bind, digitalRead.
    cbn [sensor requests rx tx sent eoc_line samples clock].
    rewrite Hhigh. reflexivity.
  - destruct fuel as [|fuel]; [lia|].
    rewrite wait_eoc_unfold. unfold bind at 1. unfold digitalRead.
    cbn [sensor requests rx tx sent eoc_line samples clock].
    pose proof (Hlow 0%nat ltac:(lia)) as H0. rewrite Nat.add_0_r in H0.
    rewrite H0. cbn [negb]. unfold bind, delay.
    cbn [sensor requests rx tx sent eoc_line samples clock].
    replace (j + S d)%nat with (S j + d)%nat by lia.
    apply (IH fuel (S j)).
    + lia.
    + intros k Hk. replace (S j + k)%nat with (j + S k)%nat by lia.
      apply Hlow. lia.
    + replace (S j + d)%nat with (j + S d)%nat by lia. exact Hhigh.
    + f_equal. lia.
Qed.

Lemma wait_eoc_goes_on (w : World) :
  forall (fuel j : nat) (w0 : World),
    (forall k, (k <= fuel)%nat -> eoc_line w (j + k + samples w) = false) ->
    w0 = {| sensor := sensor w; requests := requests w; rx := rx w;
            tx := tx w; sent := sent w; eoc_line := eoc_line w;
            samples := (j + samples w)%nat; clock := (j + clock w)%nat |} ->
    wait_eoc fuel w0 = None.
Proof.
  induction fuel as [|fuel IH]; intros j w0 Hlow ->;
    rewrite wait_eoc_unfold; unfold bind at 1; unfold digitalRead;
    cbn [sensor requests rx tx sent eoc_line samples clock];
    pose proof (Hlow 0%nat ltac:(lia)) as H0; rewrite Nat.add_0_r in H0;
    rewrite H0; cbn [negb].
  - reflexivity.
  - unfold bind, delay.
    cbn [sensor requests rx tx sent eoc_line samples clock].
    apply (IH (S j)).
    + intros k Hk. replace (S j + k)%nat with (j + S k)%nat by lia.
      apply Hlow. lia.
    + f_equal. lia.
Qed.

Lemma world_eta (w : World) :
  w = {| sensor := sensor w; requests := requests w; rx := rx w;
         tx := tx w; sent := sent w; eoc_line := eoc_line w;
         samples := (0 + samples w)%nat; clock := (0 + clock w)%nat |}.
Proof. destruct w. reflexivity. Qed.

Section PinWait.
Context {P : Platform}.

Lemma wait_ready_pin (fuel : nat) (this : SparkFun_MicroPressure) :
  _eoc this <> -1 -> wait_ready fuel this = wait_eoc fuel.
Proof.
  intros H. unfold wait_ready. apply Z.eqb_neq in H. rewrite H. reflexivity.
Qed.

Lemma wait_ready_status (fuel : nat) (this : SparkFun_MicroPressure) (w : World) :
  _eoc this = -1 ->
  wait_ready fuel this w
  = match wait_status fuel (polled w 0) (polled_world w 0) with
    | Some (_, w') => Some (tt, w')
    | None => None
    end.
Proof.
  intros Heoc. unfold wait_ready. rewrite Heoc, Z.eqb_refl. cbn [negb].
  unfold bind. rewrite readStatus_polled. reflexivity.
Qed.

(** X1. With an end-of-conversion pin the wait samples the line exactly
    while it is low: it ends at the first high sample, after [d + 1] samples
    and [d] delays and without a single request on the bus; while every
    sample is low it goes on. *)
Theorem eoc_pin_wait :
  forall (this : SparkFun_MicroPressure) (fuel : nat) (w : World),
    _eoc this <> -1 ->
    (forall d : nat,
        (d <= fuel)%nat ->
        (forall k, (k < d)%nat -> eoc_line w (k + samples w) = false) ->
        eoc_line w (d + samples w) = true ->
        wait_ready fuel this w = Some (tt, sampled_world w d))
    /\ ((forall k, (k <= fuel)%nat -> eoc_line w (k + samples w) = false) ->
        wait_ready fuel this w = None).
Proof.
  intros this fuel w Heoc. rewrite (wait_ready_pin fuel this Heoc). split.
  - intros d Hd Hlow Hhigh.
    apply (wait_eoc_ends w d fuel 0 w Hd Hlow Hhigh (world_eta w)).
  - intros Hlow. apply (wait_eoc_goes_on w fuel 0 w Hlow (world_eta w)).
Qed.

End PinWait.

(** ** A whole reading *)

Lemma lor_all_ones (x : Z) :
  0 <= x < 2^32 -> Z.lor x (to_uint32 (-1)) = 2^32 - 1.
Proof.
  intros Hx. change (to_uint32 (-1)) with (Z.ones 32).
  change (2^32 - 1) with (Z.ones 32).
  destruct (Z.eq_dec x 0) as [->|Hnz]; [reflexivity|].
  apply Z.lor_ones_low; [lia|].
  apply Z.log2_lt_pow2; lia.
Qed.

Section WholeReading.
Context {P : Platform}.

Lemma conversion_status_ends (this : SparkFun_MicroPressure)
    (fuel : nat) (w : World) (d : nat) :
  _eoc this = -1 ->
  (d <= fuel)%nat ->
  (forall k, (k < d)%nat ->
             Z.testbit (polled w k) 5 = true /\ polled w k <> 0xFF) ->
  Z.testbit (polled w d) 5 = false \/ polled w d = 0xFF ->
  conversion fuel this w = Some (tt, polled_world (triggered w) d).
Proof.
  intros Heoc Hd Hbusy Hend. unfold conversion, bind.
  rewrite trigger_triggered, (wait_ready_status fuel this _ Heoc).
  rewrite (wait_status_ends (triggered w) d fuel 0 Hd).
  - reflexivity.
  - intros k Hk. apply still_busy_true. apply (Hbusy k Hk).
  - apply still_busy_false. exact Hend.
Qed.

Lemma conversion_status_goes_on (this : SparkFun_MicroPressure)
    (fuel : nat) (w : World) :
  _eoc this = -1 ->
  (forall k, (k <= fuel)%nat ->
             Z.testbit (polled w k) 5 = true /\ polled w k <> 0xFF) ->
  conversion fuel this w = None.
Proof.
  intros Heoc Hbusy. unfold conversion, bind.
  rewrite trigger_triggered, (wait_ready_status fuel this _ Heoc).
  rewrite (wait_status_goes_on (triggered w) fuel 0).
  - reflexivity.
  - intros k Hk. apply still_busy_true. apply (Hbusy k Hk).
Qed.

Lemma conversion_pin_ends (this : SparkFun_MicroPressure)
    (fuel : nat) (w : World) (d : nat) :
  _eoc this <> -1 ->
  (d <= fuel)%nat ->
  (forall k, (k < d)%nat -> eoc_line w (k + samples w) = false) ->
  eoc_line w (d + samples w) = true ->
  conversion fuel this w = Some (tt, sampled_world (triggered w) d).
Proof.
  intros Heoc Hd Hlow Hhigh. unfold conversion, bind.
  rewrite trigger_triggered, (wait_ready_pin fuel this Heoc).
  apply (wait_eoc_ends (triggered w) d fuel 0 (triggered w) Hd Hlow Hhigh
           (world_eta (triggered w))).
Qed.

Lemma conversion_pin_goes_on (this : SparkFun_MicroPressure)
    (fuel : nat) (w : World) :
  _eoc this <> -1 ->
  (forall k, (k <= fuel)%nat -> eoc_line w (k + samples w) = false) ->
  conversion fuel this w = None.
Proof.
  intros Heoc Hlow. unfold conversion, bind.
  rewrite trigger_triggered, (wait_ready_pin fuel this Heoc).
  apply (wait_eoc_goes_on (triggered w) fuel 0 (triggered w) Hlow
           (world_eta (triggered w))).
Qed.

Lemma readPressure_blocked (fuel : nat) (this : SparkFun_MicroPressure)
    (units : Pressure_Units) (w : World) :
  conversion fuel this w = None -> readPressure fuel this units w = None.
Proof.
  unfold conversion, readPressure, bind.
  destruct (trigger w) as [[[] w0]|]; [|reflexivity].
  destruct (wait_ready fuel this w0) as [[[] w1]|]; [discriminate|reflexivity].
Qed.

(** X2. A whole reading by status polls. When the sensor is busy for [d]
    polls, then ready, and answers the read request with a status free of
    error flags and three count bytes, [readPressure] returns, given fuel
    for [d] rounds: the count as a float for RAW, its pressure in the unit
    asked otherwise. It has sent the trigger, made [d + 2] read requests and
    slept [d] milliseconds. *)
Theorem readPressure_by_status :
  forall (this : SparkFun_MicroPressure) (units : Pressure_Units)
         (fuel : nat) (w : World) (d : nat)
         (s b1 b2 b3 : byte) (rest : list byte),
    _eoc this = -1 ->
    (d <= fuel)%nat ->
    (forall k, (k < d)%nat ->
               Z.testbit (polled w k) 5 = true /\ polled w k <> 0xFF) ->
    Z.testbit (polled w d) 5 = false \/ polled w d = 0xFF ->
    sensor w (S d + requests w) = s :: b1 :: b2 :: b3 :: rest ->
    Z.testbit (u8 s) 2 = false ->
    Z.testbit (u8 s) 0 = false ->
    let w' := received (polled_world (triggered w) d) [] in
    readPressure fuel this units w
    = Some (if units =? RAW then float_of_Z (count24 b1 b2 b3)
            else in_units units (to_pressure this (count24 b1 b2 b3)), w')
    /\ sent w' = [0xAA; 0x00; 0x00] :: sent w
    /\ requests w' = (d + 2 + requests w)%nat
    /\ clock w' = (d + clock w)%nat.
Proof.
  intros this units fuel w d s b1 b2 b3 rest Heoc Hd Hbusy Hend Hreply H2 H0 w'.
  split.
  - rewrite (readPressure_fetch fuel this units w _
               (conversion_status_ends this fuel w d Heoc Hd Hbusy Hend)).
    apply (fetch_clear this units _ s b1 b2 b3 rest); assumption.
  - subst w'. cbn [received polled_world triggered sent requests clock].
    repeat split; lia.
Qed.

(** X3. A whole reading by the end-of-conversion pin: the line low for [d]
    samples, then high, and an unflagged answer of four bytes. One read
    request is made in all. *)
Theorem readPressure_by_pin :
  forall (this : SparkFun_MicroPressure) (units : Pressure_Units)
         (fuel : nat) (w : World) (d : nat)
         (s b1 b2 b3 : byte) (rest : list byte),
    _eoc this <> -1 ->
    (d <= fuel)%nat ->
    (forall k, (k < d)%nat -> eoc_line w (k + samples w) = false) ->
    eoc_line w (d + samples w) = true ->
    sensor w (requests w) = s :: b1 :: b2 :: b3 :: rest ->
    Z.testbit (u8 s) 2 = false ->
    Z.testbit (u8 s) 0 = false ->
    let w' := received (sampled_world (triggered w) d) [] in
    readPressure fuel this units w
    = Some (if units =? RAW then float_of_Z (count24 b1 b2 b3)
            else in_units units (to_pressure this (count24 b1 b2 b3)), w')
    /\ sent w' = [0xAA; 0x00; 0x00] :: sent w
    /\ requests w' = S (requests w)
    /\ clock w' = (d + clock w)%nat.
Proof.
  intros this units fuel w d s b1 b2 b3 rest Heoc Hd Hlow Hhigh Hreply H2 H0 w'.
  split.
  - rewrite (readPressure_fetch fuel this units w _
               (conversion_pin_ends this fuel w d Heoc Hd Hlow Hhigh)).
    apply (fetch_clear this units _ s b1 b2 b3 rest); assumption.
  - subst w'. repeat split.
Qed.

(** X4. No timeout: when the sensor stays busy for ever (status polls), or
    the end-of-conversion line stays low for ever (pin), [readPressure]
    does not return, whatever the fuel. *)
Theorem readPressure_never_returns :
  forall (this : SparkFun_MicroPressure) (units : Pressure_Units) (w : World),
    (_eoc this = -1 /\
     forall k, Z.testbit (polled w k) 5 = true /\ polled w k <> 0xFF)
    \/ (_eoc this <> -1 /\ forall k, eoc_line w (k + samples w) = false) ->
    forall fuel : nat, readPressure fuel this units w = None.
Proof.
  intros this units w [[Heoc Hbusy] | [Heoc Hlow]] fuel;
    apply readPressure_blocked.
  - apply conversion_status_goes_on; [exact Heoc|]. intros k _. apply Hbusy.
  - apply conversion_pin_goes_on; [exact Heoc|]. intros k _. apply Hlow.
Qed.

(** X5. A sensor that does not answer is no reason to wait: polling the
    status, the empty answer reads as 0xFF, which ends the wait at once, and
    the empty answer to the read request reads as a flagged status:
    [readPressure] returns [NAN] without a single delay, even without
    fuel. *)
Theorem readPressure_dead_bus :
  forall (this : SparkFun_MicroPressure) (units : Pressure_Units)
         (fuel : nat) (w : World),
    _eoc this = -1 ->
    sensor w (requests w) = [] ->
    sensor w (S (requests w)) = [] ->
    let w' := received (polled_world (triggered w) 0) [] in
    readPressure fuel this units w = Some (NAN, w')
    /\ clock w' = clock w.
Proof.
  intros this units fuel w Heoc Hs0 Hs1 w'. split; [|reflexivity].
  assert (Hpoll : polled w 0 = 0xFF).
  { unfold polled. cbn [Nat.add]. rewrite Hs0. reflexivity. }
  rewrite (readPressure_fetch fuel this units w (polled_world (triggered w) 0)).
  - apply fetch_no_reply. exact Hs1.
  - apply conversion_status_ends; [exact Heoc | lia | intros k Hk; lia |].
    right. exact Hpoll.
Qed.

(** X6. Missing count bytes are not detected: when the answer to the read
    request has an unflagged status but fewer than three count bytes, the
    count assembled is 0xFFFFFFFF whatever the bytes that did come; RAW
    returns it as a float and the other units convert it. *)
Theorem readPressure_short_reply :
  forall (this : SparkFun_MicroPressure) (units : Pressure_Units)
         (fuel : nat) (w w1 : World) (s : byte) (counts : list byte),
    conversion fuel this w = Some (tt, w1) ->
    sensor w1 (requests w1) = s :: counts ->
    (length counts < 3)%nat ->
    Z.testbit (u8 s) 2 = false ->
    Z.testbit (u8 s) 0 = false ->
    readPressure fuel this units w
    = Some (if units =? RAW then float_of_Z 4294967295
            else in_units units (to_pressure this 4294967295),
            received w1 []).
Proof.
  intros this units fuel w w1 s counts Hready Hreply Hlen H2 H0.
  rewrite (readPressure_fetch _ _ _ _ _ Hready).
  destruct w1 as [sen req rxb txb snt eoc smp clk].
  cbn [sensor requests] in Hreply.
  unfold fetch, bind, requestFrom, read, ret, received.
  cbn [sensor requests rx tx sent eoc_line samples clock].
  rewrite Hreply.
  assert (Hflags :
            negb (Z.land (to_uint8 (u8 s)) INTEGRITY_FLAG =? 0)
            || negb (Z.land (to_uint8 (u8 s)) MATH_SAT_FLAG =? 0) = false).
  { rewrite to_uint8_u8. unfold INTEGRITY_FLAG, MATH_SAT_FLAG.
    change 0x04 with (2^2). change 0x01 with (2^0).
    rewrite !land_bit_eqb by lia. rewrite H2, H0. reflexivity. }
  destruct counts as [|c1 [|c2 [|c3 more]]]; cbn [length] in Hlen; [| | |lia];
    cbn [firstn]; rewrite Hflags;
    unfold read_reading, bind, read, ret;
    cbn [sensor requests rx tx sent eoc_line samples clock];
    change (to_uint8 (0 + 1)) with 1; change (to_uint8 (1 + 1)) with 2;
    change (negb (0 =? 2)) with true; change (negb (1 =? 2)) with true;
    change (negb (2 =? 2)) with false; cbv iota.
  - change (Z.lor _ (to_uint32 (-1))) with 4294967295.
    destruct (units =? RAW); reflexivity.
  - pose proof (u8_range c1) as Hc1.
    rewrite (to_uint32_small (u8 c1)) by (unfold is_uint32; lia).
    rewrite Z.lor_0_l.
    rewrite (lor_all_ones (to_uint32 (Z.shiftl (u8 c1) 8)))
      by (unfold to_uint32; apply Z.mod_pos_bound; lia).
    change (Z.lor (to_uint32 (Z.shiftl (2^32 - 1) 8)) (to_uint32 (-1)))
      with 4294967295.
    destruct (units =? RAW); reflexivity.
  - rewrite (lor_all_ones (to_uint32 (Z.shiftl _ 8)))
      by (unfold to_uint32; apply Z.mod_pos_bound; lia).
    change (2^32 - 1) with 4294967295.
    destruct (units =? RAW); reflexivity.
Qed.

End WholeReading.

(** ** What a reading depends on, and what it leaves *)

Lemma same_device_refl (w : World) : same_device w w.
Proof. repeat split. Qed.

Lemma read_reading_same_bus (todo : nat) :
  forall (i reading : Z) (w w' : World),
    same_bus w w' ->
    match read_reading todo i reading w, read_reading todo i reading w' with
    | Some (v, w1), Some (v', w1') => v = v' /\ same_device w1 w1'
    | _, _ => False
    end.
Proof.
  induction todo as [|todo IH]; intros i reading w w' [Hdev Hrx].
  - cbn. split; [reflexivity | exact Hdev].
  - destruct w as [sen req rxb txb snt eoc smp clk].
    destruct w' as [sen' req' rxb' txb' snt' eoc' smp' clk'].
    unfold same_device in Hdev.
    cbn [sensor requests rx tx sent eoc_line samples clock] in Hdev, Hrx.
    subst rxb'.
    cbn [read_reading]. unfold bind, read.
    cbn [sensor requests rx tx sent eoc_line samples clock].
    destruct rxb as [|b l]; apply IH; (split; [exact Hdev | reflexivity]).
Qed.

Section Dependence.
Context {P : Platform}.

Lemma fetch_same (this : SparkFun_MicroPressure) (units : Pressure_Units)
    (w w' : World) :
  same_device w w' ->
  same_result (fetch this units w) (fetch this units w').
Proof.
  intros Hdev.
  destruct w as [sen req rxb txb snt eoc smp clk].
  destruct w' as [sen' req' rxb' txb' snt' eoc' smp' clk'].
  destruct Hdev as (Hsen & Hreq & Heoc & Hsmp).
  cbn [sensor requests eoc_line samples] in Hsen, Hreq, Heoc, Hsmp. subst.
  unfold fetch, bind, requestFrom, read.
  cbn [sensor requests rx tx sent eoc_line samples clock].
  destruct (firstn 4 (sen' req')) as [|b l].
  - destruct (_ || _).
    + cbn. repeat split.
    + match goal with
      | |- same_result
             (match read_reading 3 0 0 ?a with _ => _ end)
             (match read_reading 3 0 0 ?b with _ => _ end) =>
          pose proof (read_reading_same_bus 3 0 0 a b) as Hrr
      end.
      destruct (read_reading 3 0 0 _) as [[v w1]|];
        destruct (read_reading 3 0 0 _) as [[v' w1']|];
        try (exfalso; apply Hrr; repeat split).
      destruct Hrr as [-> Hd]; [repeat split|].
      destruct (units =? RAW); cbn; split; [reflexivity | exact Hd |
                                             reflexivity | exact Hd].
  - destruct (_ || _).
    + cbn. repeat split.
    + match goal with
      | |- same_result
             (match read_reading 3 0 0 ?a with _ => _ end)
             (match read_reading 3 0 0 ?b with _ => _ end) =>
          pose proof (read_reading_same_bus 3 0 0 a b) as Hrr
      end.
      destruct (read_reading 3 0 0 _) as [[v w1]|];
        destruct (read_reading 3 0 0 _) as [[v' w1']|];
        try (exfalso; apply Hrr; repeat split).
      destruct Hrr as [-> Hd]; [repeat split|].
      destruct (units =? RAW); cbn; split; [reflexivity | exact Hd |
                                             reflexivity | exact Hd].
Qed.

End Dependence.

Lemma readStatus_same (w w' : World) :
  same_device w w' -> same_result (readStatus w) (readStatus w').
Proof.
  intros Hdev.
  destruct w as [sen req rxb txb snt eoc smp clk].
  destruct w' as [sen' req' rxb' txb' snt' eoc' smp' clk'].
  destruct Hdev as (Hsen & Hreq & Heoc & Hsmp).
  cbn [sensor requests eoc_line samples] in Hsen, Hreq, Heoc, Hsmp. subst.
  rewrite !readStatus_polled. split; [reflexivity|]. repeat split.
Qed.

Lemma delay_same (ms : nat) (w w' : World) :
  same_device w w' ->
  match delay ms w, delay ms w' with
  | Some (_, w1), Some (_, w1') => same_device w1 w1'
  | _, _ => False
  end.
Proof. intros H. exact H. Qed.

Lemma wait_status_same (fuel : nat) :
  forall (status : Z) (w w' : World),
    same_device w w' ->
    same_result (wait_status fuel status w) (wait_status fuel status w').
Proof.
  induction fuel as [|fuel IH]; intros status w w' Hdev;
    rewrite !wait_status_unfold; destruct (still_busy status).
  - exact I.
  - split; [reflexivity | exact Hdev].
  - unfold bind at 1 3.
    pose proof (delay_same 1 w w' Hdev) as Hd.
    destruct (delay 1 w) as [[[] w1]|]; [|contradiction].
    destruct (delay 1 w') as [[[] w1']|]; [|contradiction].
    unfold bind. pose proof (readStatus_same w1 w1' Hd) as Hs.
    destruct (readStatus w1) as [[s1 w2]|];
      destruct (readStatus w1') as [[s1' w2']|]; try contradiction.
    + destruct Hs as [-> Hd2]. apply IH. exact Hd2.
    + exact I.
  - split; [reflexivity | exact Hdev].
Qed.

Lemma wait_eoc_same (fuel : nat) :
  forall (w w' : World),
    same_device w w' ->
    same_result (wait_eoc fuel w) (wait_eoc fuel w').
Proof.
  induction fuel as [|fuel IH]; intros w w' Hdev;
    destruct w as [sen req rxb txb snt eoc smp clk];
    destruct w' as [sen' req' rxb' txb' snt' eoc' smp' clk'];
    destruct Hdev as (Hsen & Hreq & Heoc & Hsmp);
    cbn [sensor requests eoc_line samples] in Hsen, Hreq, Heoc, Hsmp; subst;
    cbn [wait_eoc]; unfold bind, digitalRead, delay, ret, blocked;
    cbn [sensor requests rx tx sent eoc_line samples clock];
    destruct (eoc' smp'); cbn [negb same_result].
  - split; [reflexivity|]. unfold same_device. cbn. auto.
  - exact I.
  - split; [reflexivity|]. unfold same_device. cbn. auto.
  - apply IH. unfold same_device. cbn. auto.
Qed.

Section Dependence2.
Context {P : Platform}.

Lemma wait_ready_same (fuel : nat) (this : SparkFun_MicroPressure)
    (w w' : World) :
  same_device w w' ->
  same_result (wait_ready fuel this w) (wait_ready fuel this w').
Proof.
  intros Hdev. unfold wait_ready. destruct (negb (_eoc this =? -1)).
  - apply wait_eoc_same. exact Hdev.
  - unfold bind at 1 3. pose proof (readStatus_same w w' Hdev) as Hs.
    destruct (readStatus w) as [[s1 w1]|];
      destruct (readStatus w') as [[s1' w1']|]; try contradiction;
      [|exact I].
    destruct Hs as [-> Hd]. unfold bind.
    pose proof (wait_status_same fuel s1' w1 w1' Hd) as Hw.
    destruct (wait_status fuel s1' w1) as [[s2 w2]|];
      destruct (wait_status fuel s1' w1') as [[s2' w2']|]; try contradiction;
      [|exact I].
    split; [reflexivity | apply Hw].
Qed.

Lemma readPressure_same :
  forall (this : SparkFun_MicroPressure) (units : Pressure_Units)
         (fuel : nat) (w w' : World),
    same_device w w' ->
    same_result (readPressure fuel this units w)
                (readPressure fuel this units w').
Proof.
  intros this units fuel w w' Hdev. unfold readPressure.
  unfold bind at 1 3. rewrite !trigger_triggered. unfold bind.
  assert (Ht : same_device (triggered w) (triggered w')) by exact Hdev.
  pose proof (wait_ready_same fuel this _ _ Ht) as Hw.
  destruct (wait_ready fuel this (triggered w)) as [[[] w1]|];
    destruct (wait_ready fuel this (triggered w')) as [[[] w1']|];
    try contradiction; [|exact I].
  apply fetch_same. apply Hw.
Qed.


(** X8. What [readPressure] returns depends on what the sensor and the
    end-of-conversion line will do, not on what the buffers of the bus hold,
    on what was sent before or on the time: in two worlds alike in the
    former it blocks in both or returns the same value in both, and leaves
    worlds alike again. Bytes left unread by a reading never reach the
    next one. *)
Theorem readPressure_same_device :
  forall (this : SparkFun_MicroPressure) (units : Pressure_Units)
         (fuel : nat) (w w' : World),
    same_device w w' ->
    same_result (readPressure fuel this units w)
                (readPressure fuel this units w').
Proof.
  intros this units fuel w w' Hdev. apply readPressure_same. exact Hdev.
Qed.

End Dependence2.

Lemma quiet_refl (w : World) : quiet w w.
Proof. unfold quiet. repeat split; lia. Qed.

Lemma quiet_trans (w1 w2 w3 : World) : quiet w1 w2 -> quiet w2 w3 -> quiet w1 w3.
Proof.
  unfold quiet. intros (A1 & A2 & A3 & A4 & A5 & A6 & A7)
                       (B1 & B2 & B3 & B4 & B5 & B6 & B7).
  repeat split; try congruence; lia.
Qed.

Lemma read_quiet (w w' : World) (v : Z) :
  read w = Some (v, w') -> quiet w w' /\ requests w' = requests w.
Proof.
  unfold read. destruct (rx w) as [|b l]; intros H; injection H as <- <-.
  - split; [apply quiet_refl | reflexivity].
  - unfold quiet. cbn. repeat split; lia.
Qed.

Lemma read_reading_quiet (todo : nat) :
  forall (i reading : Z) (w w' : World) (v : Z),
    read_reading todo i reading w = Some (v, w') ->
    quiet w w' /\ requests w' = requests w.
Proof.
  induction todo as [|todo IH]; intros i reading w w' v H.
  - injection H as <- <-. split; [apply quiet_refl | reflexivity].
  - cbn [read_reading] in H. unfold bind in H.
    destruct (read w) as [[b w1]|] eqn:Hr; [|discriminate].
    apply read_quiet in Hr. apply IH in H.
    destruct Hr as [Hq1 He1], H as [Hq2 He2].
    split; [eapply quiet_trans; eassumption | congruence].
Qed.

Lemma readStatus_quiet (w w' : World) (v : Z) :
  readStatus w = Some (v, w') -> quiet w w'.
Proof.
  rewrite readStatus_polled. intros H. injection H as <- <-.
  unfold quiet. cbn. repeat split; lia.
Qed.

Lemma wait_status_quiet (fuel : nat) :
  forall (status : Z) (w w' : World) (v : Z),
    wait_status fuel status w = Some (v, w') -> quiet w w'.
Proof.
  induction fuel as [|fuel IH]; intros status w w' v H;
    rewrite wait_status_unfold in H; destruct (still_busy status);
    try discriminate; try (injection H as <- <-; apply quiet_refl).
  unfold bind in H. unfold delay at 1 in H.
  destruct (readStatus _) as [[s1 w1]|] eqn:Hs; [|discriminate].
  apply readStatus_quiet in Hs. apply IH in H.
  eapply quiet_trans; [|exact H]. eapply quiet_trans; [|exact Hs].
  unfold quiet. cbn. repeat split; lia.
Qed.

Lemma wait_eoc_quiet (fuel : nat) :
  forall (w w' : World),
    wait_eoc fuel w = Some (tt, w') ->
    quiet w w' /\ requests w' = requests w.
Proof.
  induction fuel as [|fuel IH]; intros w w' H;
    cbn [wait_eoc] in H; unfold bind, digitalRead, delay, ret, blocked in H;
    destruct (eoc_line w (samples w)); cbn [negb] in H;
    try discriminate.
  - injection H as <-. unfold quiet. cbn. repeat split; lia.
  - injection H as <-. unfold quiet. cbn. repeat split; lia.
  - apply IH in H. destruct H as [Hq He]. cbn in He. split; [|exact He].
    eapply quiet_trans; [|exact Hq]. unfold quiet. cbn. repeat split; lia.
Qed.

Section Frame.
Context {P : Platform}.

Lemma fetch_quiet (this : SparkFun_MicroPressure) (units : Pressure_Units)
    (w w' : World) (v : float) :
  fetch this units w = Some (v, w') ->
  quiet w w' /\ requests w' = S (requests w).
Proof.
  unfold fetch, bind. unfold requestFrom at 1.
  destruct (read _) as [[b w1]|] eqn:Hr; [|discriminate].
  apply read_quiet in Hr. destruct Hr as [Hq1 He1].
  cbn [requests] in He1.
  assert (Hq0 : quiet w w1).
  { eapply quiet_trans; [|exact Hq1]. unfold quiet. cbn. repeat split; lia. }
  destruct (_ || _).
  - intros H. injection H as <- <-. split; assumption.
  - destruct (read_reading 3 0 0 w1) as [[r w2]|] eqn:Hrr; [|discriminate].
    apply read_reading_quiet in Hrr. destruct Hrr as [Hq2 He2].
    intros H.
    assert (Hw : w' = w2) by (destruct (units =? RAW); injection H; auto).
    subst w'. split; [eapply quiet_trans; eassumption | congruence].
Qed.

(** X9. What a reading does to the bus. Whenever [readPressure] returns it
    has written one transaction, the trigger 0xAA 0x00 0x00, and nothing
    else, its transmit buffer is empty, it has made at least one read
    request (exactly one when it waits on the pin), and what the sensor and
    the end-of-conversion line will do next is as before. *)
Theorem readPressure_frame :
  forall (this : SparkFun_MicroPressure) (units : Pressure_Units)
         (fuel : nat) (w w' : World) (v : float),
    readPressure fuel this units w = Some (v, w') ->
    sent w' = [0xAA; 0x00; 0x00] :: sent w
    /\ tx w' = []
    /\ sensor w' = sensor w
    /\ eoc_line w' = eoc_line w
    /\ (requests w < requests w')%nat
    /\ (_eoc this <> -1 -> requests w' = S (requests w))
    /\ (clock w <= clock w')%nat.
Proof.
  intros this units fuel w w' v H. unfold readPressure in H.
  unfold bind at 1 in H. rewrite trigger_triggered in H. unfold bind in H.
  destruct (wait_ready fuel this (triggered w)) as [[[] w1]|] eqn:Hw;
    [|discriminate].
  apply fetch_quiet in H. destruct H as [Hq2 He2].
  assert (Hq1 : quiet (triggered w) w1
                /\ (_eoc this <> -1 -> requests w1 = requests w)).
  { unfold wait_ready in Hw.
    destruct (Z.eqb_spec (_eoc this) (-1)) as [Heoc|Heoc]; cbn [negb] in Hw.
    - split; [|intros Hne; contradiction].
      unfold bind in Hw.
      destruct (readStatus _) as [[s1 w2]|] eqn:Hs; [|discriminate].
      apply readStatus_quiet in Hs.
      destruct (wait_status fuel s1 w2) as [[s2 w3]|] eqn:Hws; [|discriminate].
      apply wait_status_quiet in Hws. injection Hw as <-.
      eapply quiet_trans; eassumption.
    - apply wait_eoc_quiet in Hw. destruct Hw as [Hq He].
      split; [exact Hq | intros _; exact He]. }
  destruct Hq1 as [Hq1 Hpin].
  pose proof (quiet_trans _ _ _ Hq1 Hq2) as Hq.
  unfold quiet in Hq, Hq1. cbn [triggered sensor requests rx tx sent eoc_line
                                samples clock] in Hq, Hq1.
  destruct Hq as (A1 & A2 & A3 & A4 & A5 & A6 & A7).
  destruct Hq1 as (B1 & B2 & B3 & B4 & B5 & B6 & B7).
  split; [exact A3|]. split; [exact A4|]. split; [exact A1|].
  split; [exact A2|]. split; [lia|]. split; [|lia].
  intros Hne. rewrite He2, (Hpin Hne). reflexivity.
Qed.

End Frame.

(** ** Counts as floats *)

Lemma digits2_pos_size (p : positive) : digits2_pos p = Pos.size p.
Proof. induction p as [p IH|p IH|]; cbn; rewrite ?IH; reflexivity. Qed.

Lemma digits2_pos_bound (p : positive) (n : Z) :
  0 <= n -> Zpos p < 2^n -> Zpos (digits2_pos p) <= n.
Proof.
  intros Hn Hp. rewrite digits2_pos_size.
  pose proof (Pos.size_le p) as Hle.
  apply Pos2Z.pos_le_pos in Hle. rewrite Pos2Z.inj_pow in Hle.
  change (Z.pos p~0) with (2 * Z.pos p) in Hle.
  destruct (Z_le_gt_dec (Z.pos (Pos.size p)) n) as [H|H]; [exact H|].
  exfalso.
  assert (Hpow : 2 ^ (n + 1) <= 2 ^ Z.pos (Pos.size p))
    by (apply Z.pow_le_mono_r; lia).
  rewrite Z.pow_add_r in Hpow by lia. lia.
Qed.

Lemma iter_xO_spec (p k : positive) :
  digits2_pos (Pos.iter xO p k) = (digits2_pos p + k)%positive
  /\ Zpos (Pos.iter xO p k) = Zpos p * 2 ^ Zpos k.
Proof.
  induction k as [|k IH] using Pos.peano_ind.
  - cbn [Pos.iter digits2_pos]. split; [lia|]. change (2 ^ 1) with 2. lia.
  - rewrite Pos.iter_succ. destruct IH as [IHd IHv]. cbn [digits2_pos].
    rewrite IHd. split; [lia|].
    rewrite Pos2Z.inj_xO, IHv, Pos2Z.inj_succ, Z.pow_succ_r by lia. ring.
Qed.

(** A mantissa of 24 bits is left as it is. *)
Lemma binary_round_aux_canonical (s : bool) (m : positive) (e : Z) :
  Zpos (digits2_pos m) = 24 -> -149 <= e <= 104 ->
  binary_round_aux 24 128 s (Zpos m) e loc_Exact = S754_finite s m e.
Proof.
  intros Hd He.
  assert (Hshift : fexp 24 128 (Zdigits2 (Zpos m) + e) - e = 0).
  { unfold fexp, emin, Zdigits2. rewrite Hd. lia. }
  unfold binary_round_aux, shr_fexp. rewrite Hshift.
  cbn [shr shr_record_of_loc shr_m loc_of_shr_record round_nearest_even].
  rewrite Hshift.
  cbn [shr shr_record_of_loc shr_m].
  assert (Hle : (e <=? 128 - 24) = true) by (apply Z.leb_le; lia).
  rewrite Hle. reflexivity.
Qed.

(** An integer of at most 24 bits is rounded to itself. *)
Lemma binary_round_small (s : bool) (p : positive) :
  Zpos p < 2^24 ->
  exists (m : positive) (e : Z),
    binary_round 24 128 s p 0 = S754_finite s m e
    /\ e <= 0 /\ Zpos m = Zpos p * 2 ^ (- e).
Proof.
  intros Hp.
  pose proof (digits2_pos_bound p 24 ltac:(lia) Hp) as Hd.
  assert (Hd1 : 1 <= Zpos (digits2_pos p)) by lia.
  unfold binary_round.
  assert (Hfexp : fexp 24 128 (Zpos (digits2_pos p) + 0)
                  = Zpos (digits2_pos p) - 24).
  { unfold fexp, emin. lia. }
  rewrite Hfexp. unfold shl_align.
  destruct (Z.eq_dec (Zpos (digits2_pos p)) 24) as [H24|Hlt].
  - rewrite H24. change (24 - 24 - 0) with 0. cbv beta iota zeta.
    exists p, 0. rewrite binary_round_aux_canonical by (lia || assumption).
    split; [reflexivity|]. split; [lia|]. change (2 ^ (- 0)) with 1. lia.
  - remember (Z.to_pos (24 - Zpos (digits2_pos p))) as k eqn:Hk.
    assert (Hkz : Zpos k = 24 - Zpos (digits2_pos p))
      by (subst k; rewrite Z2Pos.id; lia).
    replace (Zpos (digits2_pos p) - 24 - 0) with (Zneg k) by lia.
    cbv beta iota zeta.
    destruct (iter_xO_spec p k) as [Hdig Hval].
    exists (Pos.iter xO p k), (Zpos (digits2_pos p) - 24).
    rewrite binary_round_aux_canonical by (rewrite ?Hdig; lia).
    split; [reflexivity|]. split; [lia|].
    rewrite Hval. f_equal. f_equal. lia.
Qed.

Lemma float_of_Z_exact (dprec demax : Z) (z : Z) :
  - 2^24 < z < 2^24 ->
  denotes (@float_of_Z (IEEE dprec demax) z) z.
Proof.
  intros Hz. change (@float_of_Z (IEEE dprec demax) z)
    with (binary_normalize 24 128 z 0 false).
  destruct z as [|p|p]; cbn [binary_normalize].
  - reflexivity.
  - destruct (binary_round_small false p ltac:(lia)) as (m & e & -> & He & Hm).
    cbn [denotes cond_Zopp]. split; assumption.
  - destruct (binary_round_small true p ltac:(lia)) as (m & e & -> & He & Hm).
    cbn [denotes]. split; [assumption|].
    unfold cond_Zopp. rewrite Hm. change (Z.neg p) with (- Z.pos p). ring.
Qed.

Section ExactCounts.
Variables dprec demax : Z.

(** X7. Nothing is lost when a count becomes a float: in binary32 the
    value that RAW returns is the 24-bit count itself, and with a lower
    count bound of 24 bits the difference that the conversion to pressure
    starts from is exact too; only the product and the sum round. *)
Theorem readPressure_raw_exact :
  forall (this : @SparkFun_MicroPressure (IEEE dprec demax))
         (fuel : nat) (w w1 : World) (s b1 b2 b3 : byte) (rest : list byte),
    conversion fuel this w = Some (tt, w1) ->
    sensor w1 (requests w1) = s :: b1 :: b2 :: b3 :: rest ->
    Z.testbit (u8 s) 2 = false ->
    Z.testbit (u8 s) 0 = false ->
    let r := count24 b1 b2 b3 in
    (exists v : spec_float,
        readPressure fuel this RAW w = Some (v, received w1 [])
        /\ denotes v r)
    /\ (0 <= _minCounts this < 2^24 ->
        exists x : spec_float,
          denotes x (r - _minCounts this)
          /\ to_pressure this r
             = SFadd 24 128 (SFmul 24 128 x (_calFactor this)) (_minPsi this)).
Proof.
  intros this fuel w w1 s b1 b2 b3 rest Hready Hreply H2 H0 r.
  pose proof (count24_range b1 b2 b3) as Hr. fold r in Hr. split.
  - exists (@float_of_Z (IEEE dprec demax) r). split.
    + rewrite (readPressure_fetch _ _ _ _ _ Hready).
      rewrite (fetch_clear this RAW w1 s b1 b2 b3 rest) by assumption.
      reflexivity.
    + apply float_of_Z_exact. lia.
  - intros Hmin.
    exists (@float_of_Z (IEEE dprec demax) (r - _minCounts this)). split.
    + apply float_of_Z_exact. lia.
    + unfold to_pressure.
      rewrite (to_int32_small r) by lia.
      rewrite (to_int32_small (_minCounts this)) by lia.
      rewrite sub_i32_exact by lia. reflexivity.
Qed.

End ExactCounts.

(** ** Sequences of calibrations *)

Section CalibrationSequences.
Context {P : Platform}.

(** X10. No sequence of [setZero] and [setCalFac] calls touches the lower
    pressure bound, the upper count bound, the pins or the transfer
    function, and the span of the counts stays the [uint32_t] difference of
    the count bounds. *)
Theorem calibrate_frame :
  forall (cs : list Calibration) (this : SparkFun_MicroPressure),
    let this' := calibrate this cs in
    _minPsi this' = _minPsi this
    /\ _maxCounts this' = _maxCounts this
    /\ _eoc this' = _eoc this
    /\ _rst this' = _rst this
    /\ _transfer_function this' = _transfer_function this
    /\ (_deltaCounts this = sub_u32 (_maxCounts this) (_minCounts this) ->
        _deltaCounts this' = sub_u32 (_maxCounts this') (_minCounts this')).
Proof.
  induction cs as [|c cs IH]; intros this; cbn zeta.
  - cbn. repeat split; auto.
  - unfold calibrate. cbn [fold_left]. fold (calibrate (calibrate1 this c) cs).
    specialize (IH (calibrate1 this c)). cbn zeta in IH.
    destruct IH as (I1 & I2 & I3 & I4 & I5 & I6).
    destruct c as [z|f]; cbn [calibrate1] in *;
      cbn [setZero setCalFac _minPsi _maxCounts _eoc _rst _transfer_function
           _deltaCounts _minCounts] in *;
      repeat split; auto.
Qed.

(** X11. Only the last call of a setter counts: [setZero] after any number
    of [setZero] calls gives what it gives alone, and [setCalFac]
    likewise. *)
Theorem setters_override :
  forall (this : SparkFun_MicroPressure),
    (forall (zs : list Z) (z : Z),
        setZero (calibrate this (map SetZero zs)) z = setZero this z)
    /\ (forall (fs : list float) (f : float),
           setCalFac (calibrate this (map SetCalFac fs)) f = setCalFac this f).
Proof.
  intros this. split.
  - intros zs. revert this. induction zs as [|z0 zs IH]; intros this z.
    + reflexivity.
    + unfold calibrate. cbn [map fold_left calibrate1].
      fold (calibrate (setZero this z0) (map SetZero zs)).
      rewrite IH. reflexivity.
  - intros fs. revert this. induction fs as [|f0 fs IH]; intros this f.
    + reflexivity.
    + unfold calibrate. cbn [map fold_left calibrate1].
      fold (calibrate (setCalFac this f0) (map SetCalFac fs)).
      rewrite IH. reflexivity.
Qed.

End CalibrationSequences.

(** ** The two setters together, in exact arithmetic *)









(** ** [readStatus] and [begin] *)

(** X16. [readStatus] makes one read request of one byte and returns the
    byte the sensor sends, or 0xFF when it sends nothing; the receive
    buffer is empty afterwards, whatever it held and however many bytes the
    sensor offered. *)
Theorem readStatus_byte :
  forall (w : World),
    exists v : Z,
      readStatus w = Some (v, polled_world w 0)
      /\ (sensor w (requests w) = [] -> v = 0xFF)
      /\ (forall b l, sensor w (requests w) = b :: l -> v = u8 b)
      /\ rx (polled_world w 0) = []
      /\ requests (polled_world w 0) = S (requests w).
Proof.
  intros w. exists (polled w 0). split; [apply readStatus_polled|].
  unfold polled. cbn [Nat.add].
  split; [intros ->; reflexivity|].
  split; [intros b l ->; apply to_uint8_u8|].
  split; reflexivity.
Qed.


Section Begin.
Context {P : Platform}.




End Begin.

(** ** More of the driver, on the bench *)

Lemma eoc_pin_wait_witness :
  let this := SparkFun_MicroPressure_ctor (P := ARM) 2 (-1)
                (float_of_Z 0) (float_of_Z 25) "A" in
  let w := bench eoc_replies 3 in
  wait_ready 5 this w = Some (tt, sampled_world w 3)
  /\ wait_ready 2 this w = None.
Proof.
  intros this w.
  assert (Heoc : _eoc this <> -1) by discriminate.
  destruct (eoc_pin_wait this 5 w Heoc) as [Hends _].
  destruct (eoc_pin_wait this 2 w Heoc) as [_ Hgoes].
  split.
  - apply (Hends 3%nat).
    + lia.
    + intros k Hk. destruct k as [|[|[|k]]]; [reflexivity..|lia].
    + reflexivity.
  - apply Hgoes. intros k Hk. destruct k as [|[|[|k]]]; [reflexivity..|lia].
Defined.

Lemma readPressure_by_status_witness :
  let this := SparkFun_MicroPressure_default (P := ARM) in
  let w := bench bench_replies 0 in
  let w' := received (polled_world (triggered w) 2) [] in
  readPressure 2 this PSI w
  = Some (in_units PSI (to_pressure this (count24 x80 x00 x00)), w')
  /\ sent w' = [0xAA; 0x00; 0x00] :: sent w
  /\ requests w' = (2 + 2 + requests w)%nat
  /\ clock w' = (2 + clock w)%nat.
Proof.
  intros this w w'.
  apply (readPressure_by_status this PSI 2 w 2 x40 x80 x00 x00 []).
  - reflexivity.
  - lia.
  - intros k Hk. destruct k as [|[|k]]; [| |lia];
      (split; [reflexivity | discriminate]).
  - left. reflexivity.
  - reflexivity.
  - reflexivity.
  - reflexivity.
Defined.

Lemma readPressure_by_pin_witness :
  let this := SparkFun_MicroPressure_ctor (P := ARM) 2 (-1)
                (float_of_Z 0) (float_of_Z 25) "A" in
  let w := bench eoc_replies 3 in
  let w' := received (sampled_world (triggered w) 3) [] in
  readPressure 3 this RAW w = Some (float_of_Z (count24 x80 x00 x00), w')
  /\ sent w' = [0xAA; 0x00; 0x00] :: sent w
  /\ requests w' = S (requests w)
  /\ clock w' = (3 + clock w)%nat.
Proof.
  intros this w w'.
  apply (readPressure_by_pin this RAW 3 w 3 x40 x80 x00 x00 []).
  - discriminate.
  - lia.
  - intros k Hk. destruct k as [|[|[|k]]]; [reflexivity..|lia].
  - reflexivity.
  - reflexivity.
  - reflexivity.
  - reflexivity.
Defined.

Lemma readPressure_never_returns_witness :
  readPressure 1000 (SparkFun_MicroPressure_default (P := ARM)) PSI stuck_world
  = None.
Proof.
  apply (readPressure_never_returns
           (SparkFun_MicroPressure_default (P := ARM)) PSI stuck_world).
  left. split; [reflexivity|].
  intros k. split; [reflexivity | discriminate].
Defined.

Lemma readPressure_dead_bus_witness :
  let this := SparkFun_MicroPressure_default (P := ARM) in
  let w := bench [] 0 in
  let w' := received (polled_world (triggered w) 0) [] in
  readPressure 0 this PSI w = Some (NAN, w') /\ clock w' = clock w.
Proof.
  intros this w w'.
  apply (readPressure_dead_bus this PSI 0 w); reflexivity.
Defined.

Lemma readPressure_short_reply_witness :
  let this := SparkFun_MicroPressure_default (P := ARM) in
  let w := bench short_replies 0 in
  let w1 := polled_world (triggered w) 0 in
  readPressure 0 this RAW w = Some (float_of_Z 4294967295, received w1 []).
Proof.
  intros this w w1.
  apply (readPressure_short_reply this RAW 0 w w1 x40 [x80; x00]%byte).
  - vm_compute. reflexivity.
  - reflexivity.
  - cbn. lia.
  - reflexivity.
  - reflexivity.
Defined.

Lemma readPressure_raw_exact_witness :
  let this := SparkFun_MicroPressure_default (P := ARM) in
  let w := bench bench_replies 0 in
  let w1 := polled_world (triggered w) 2 in
  let r := count24 x80 x00 x00 in
  (exists v : spec_float,
      readPressure 4 this RAW w = Some (v, received w1 []) /\ denotes v r)
  /\ (0 <= _minCounts this < 2^24 ->
      exists x : spec_float,
        denotes x (r - _minCounts this)
        /\ to_pressure this r
           = SFadd 24 128 (SFmul 24 128 x (_calFactor this)) (_minPsi this)).
Proof.
  intros this w w1 r.
  apply (readPressure_raw_exact 53 1024 this 4 w w1 x40 x80 x00 x00 []).
  - vm_compute. reflexivity.
  - reflexivity.
  - reflexivity.
  - reflexivity.
Defined.

Lemma readPressure_same_device_witness :
  same_result
    (readPressure 4 (SparkFun_MicroPressure_default (P := ARM)) PSI
       (bench bench_replies 0))
    (readPressure 4 (SparkFun_MicroPressure_default (P := ARM)) PSI
       (stale_bench bench_replies 0)).
Proof.
  apply readPressure_same_device. repeat split.
Defined.

Lemma readPressure_frame_witness :
  let this := SparkFun_MicroPressure_default (P := ARM) in
  let w := stale_bench flagged_replies 0 in
  let w' := received (polled_world (triggered w) 0) [x80; x00; x00]%byte in
  sent w' = [0xAA; 0x00; 0x00] :: sent w
  /\ tx w' = []
  /\ sensor w' = sensor w
  /\ eoc_line w' = eoc_line w
  /\ (requests w < requests w')%nat
  /\ (_eoc this <> -1 -> requests w' = S (requests w))
  /\ (clock w <= clock w')%nat.
Proof.
  intros this w w'.
  apply (readPressure_frame this PSI 0 w w' NAN).
  vm_compute. reflexivity.
Defined.







Lemma min_endpoint_binary32_witness :
  let this := setZero (SparkFun_MicroPressure_default (P := ARM)) 1700000 in
  SFeqb (to_pressure this (_minCounts this)) (_minPsi this) = true.
Proof.
  intros this. apply (min_endpoint_binary32 53 1024 this); exact I.
Defined.

